(** * The Puppeteer MCP server (src/mcp-servers/puppeteer/index.ts)

    A shallow embedding of [PuppeteerMcpServer]: the single browser session,
    the bounded console log, the tool and resource handlers and the cleanup
    timer.  The browser-automation engine, the clock and the SDK's error
    class are outside the repository; they are collected in the [Platform]
    class and every handler is written against an arbitrary platform.  The
    diagnostics the server prints on stderr are not part of the state. *)

From Stdlib Require Import String Ascii List ZArith Lia Bool Arith.
Import ListNotations.
Open Scope string_scope.

(** ** Values exchanged with the protocol layer *)

(** The members of the SDK's [ErrorCode] the server uses. *)
Inductive ErrorCode : Type :=
  | InvalidRequest
  | MethodNotFound
  | InternalError.

(** What a handler can throw: [new Error(message)], [new McpError(code,
    message)] with the constructor's arguments, or any other exception,
    raised inside the engine or by the runtime, kept as the text its string
    conversion gives. *)
Inductive Thrown : Type :=
  | JsError (message : string)
  | McpError (code : ErrorCode) (message : string)
  | Exception (rendered : string).

(** Items of a tool result's [content] array. *)
Inductive Content : Type :=
  | TextContent (text : string)
  | ImageContent (data : string) (mimeType : string).

Definition ToolResult : Type := list Content.

(** An item of a resource result's [contents] array. *)
Record ResourceContent : Type := mkResourceContent {
  rc_uri : string;
  rc_mimeType : string;
  rc_text : string
}.

(** ** Strings of the page

    The strings the server builds and compares are held as their UTF-8
    bytes, the way the literals of the source are.  The text of the document
    is the one string the server measures and cuts: it is given by its UTF-16
    code units, which is what [length] and [substring] count. *)

(** A UTF-16 code unit, a number below 65536. *)
Definition CodeUnit : Type := N.

Definition JsString : Type := list CodeUnit.

(** The code units of an ASCII literal. *)
Fixpoint unitsOf (s : string) : JsString :=
  match s with
  | EmptyString => []
  | String c rest => N_of_ascii c :: unitsOf rest
  end.

Definition isHighSurrogate (u : CodeUnit) : bool :=
  (55296 <=? u)%N && (u <? 56320)%N.

Definition isLowSurrogate (u : CodeUnit) : bool :=
  (56320 <=? u)%N && (u <? 57344)%N.

(** The three bytes of a code unit from 2048 on that is not the first half
    of a pair. *)
Definition threeBytes (u : CodeUnit) (rest : string) : string :=
  String (ascii_of_N (224 + u / 4096))
    (String (ascii_of_N (128 + (u / 64) mod 64))
       (String (ascii_of_N (128 + u mod 64)) rest)).

(** The bytes of a string given by its code units: UTF-8, a surrogate pair
    as the four bytes of its code point, a surrogate left alone as three. *)
Fixpoint utf8 (us : JsString) : string :=
  match us with
  | [] => ""
  | u :: rest =>
      if (u <? 128)%N then String (ascii_of_N u) (utf8 rest)
      else if (u <? 2048)%N then
        String (ascii_of_N (192 + u / 64))
          (String (ascii_of_N (128 + u mod 64)) (utf8 rest))
      else
        match rest with
        | l :: rest' =>
            if isHighSurrogate u && isLowSurrogate l then
              let cp := (65536 + (u - 55296) * 1024 + (l - 56320))%N in
              String (ascii_of_N (240 + cp / 262144))
                (String (ascii_of_N (128 + (cp / 4096) mod 64))
                   (String (ascii_of_N (128 + (cp / 64) mod 64))
                      (String (ascii_of_N (128 + cp mod 64)) (utf8 rest'))))
            else threeBytes u (utf8 rest)
        | [] => threeBytes u ""
        end
  end.

(** ** The engine's handles and primitives *)

Definition Browser : Type := nat.
Definition Page : Type := nat.
Definition Element : Type := nat.

(** The calls the server makes into puppeteer, indexed by the type of what
    they return; [V] is the type of values a page script evaluates to. *)
Inductive Prim (V : Type) : Type -> Type :=
  | Launch (headless : bool) (args : list string) : Prim V Browser
  | NewPage (b : Browser) : Prim V Page
  | SetUserAgent (p : Page) (ua : string) : Prim V unit
  | SetViewport (p : Page) (width height : Z) : Prim V unit
  | OnConsole (p : Page) : Prim V unit
  | Goto (p : Page) (url : string) (waitUntil : string) : Prim V unit
  | Query (p : Page) (selector : string) : Prim V (option Element)
  | ElementScreenshot (el : Element) : Prim V string
  | PageScreenshot (p : Page) (fullPage : bool) : Prim V string
  | Click (p : Page) (selector : string) (clickCount : option Z) : Prim V unit
  | TypeInto (p : Page) (selector : string) (text : string) : Prim V unit
  | WaitForSelector (p : Page) (selector : string) (timeout : Z) : Prim V unit
  | Evaluate (p : Page) (code : string) : Prim V V
  | EvalTextContent (p : Page) (selector : string) : Prim V string
  | BodyTextContent (p : Page) : Prim V JsString
  | PageUrl (p : Page) : Prim V string
  | PageTitle (p : Page) : Prim V string
  | BrowserClose (b : Browser) : Prim V unit.

Arguments Launch {V}.
Arguments NewPage {V}.
Arguments SetUserAgent {V}.
Arguments SetViewport {V}.
Arguments OnConsole {V}.
Arguments Goto {V}.
Arguments Query {V}.
Arguments ElementScreenshot {V}.
Arguments PageScreenshot {V}.
Arguments Click {V}.
Arguments TypeInto {V}.
Arguments WaitForSelector {V}.
Arguments Evaluate {V}.
Arguments EvalTextContent {V}.
Arguments BodyTextContent {V}.
Arguments PageUrl {V}.
Arguments PageTitle {V}.
Arguments BrowserClose {V}.

(** A primitive with its return type forgotten, for the record of what a
    handler invoked. *)
Inductive Invocation (V : Type) : Type :=
  | Invoked (A : Type) (p : Prim V A).

Arguments Invoked {V A}.

(** The page an invocation acts on, when it acts on one. *)
Definition page_of {V : Type} (i : Invocation V) : option Page :=
  match i with
  | Invoked q =>
      match q with
      | SetUserAgent p _ | SetViewport p _ _ | OnConsole p | Goto p _ _
      | Query p _ | PageScreenshot p _ | Click p _ _ | TypeInto p _ _
      | WaitForSelector p _ _ | Evaluate p _ | EvalTextContent p _
      | BodyTextContent p | PageUrl p | PageTitle p => Some p
      | Launch _ _ | NewPage _ | ElementScreenshot _ | BrowserClose _ => None
      end
  end.

Definition is_goto {V : Type} (i : Invocation V) : bool :=
  match i with
  | Invoked q => match q with Goto _ _ _ => true | _ => false end
  end.


(** ** What the server is run against *)

Class Platform : Type := {
  (** the state of the engine and of everything else outside the server *)
  World : Type;
  (** values returned by [page.evaluate] *)
  JsValue : Type;
  (** the engine's answer to a primitive: a value, or a thrown exception
      given by its string conversion *)
  respond : forall A : Type, Prim JsValue A -> World -> (string + A) * World;
  (** [browser.connected] *)
  connected : World -> Browser -> bool;
  (** [Date.now()] *)
  dateNow : World -> Z;
  (** the string conversion of an [McpError] built from a code and a message *)
  mcpErrorToString : ErrorCode -> string -> string;
  (** [JSON.stringify] of a string, and of an evaluation result: its text,
      or the TypeError thrown for a value that has no JSON form *)
  jsonString : string -> string;
  jsonValue : JsValue -> string + string
}.

(** ** Server state *)

Record BrowserSession : Type := mkSession {
  browser : Browser;
  page : Page;
  lastActivity : Z
}.

Record ConsoleMessage : Type := mkConsoleMessage {
  msg_type : string;
  msg_text : string
}.

(** Requests of the CallTool handler: the tool name with its destructured
    arguments ([None] for an optional argument that is not given);
    [OtherTool] stands for a name that matches none of the eight cases. *)
Inductive ToolRequest : Type :=
  | Navigate (url : string)
  | Screenshot (selector : option string) (fullPage : option bool)
  | ClickTool (selector : string)
  | TypeTool (selector : string) (text : string) (clear : option bool)
  | WaitForElement (selector : string) (timeout : option Z)
  | EvaluateJs (code : string)
  | GetText (selector : option string)
  | CloseBrowser
  | OtherTool (name : string).

Definition requires_browser (r : ToolRequest) : bool :=
  match r with
  | CloseBrowser | OtherTool _ => false
  | _ => true
  end.

(** ** String helpers of the JavaScript runtime *)

Definition dq : string := String "034"%char EmptyString.
Definition nl : string := String "010"%char EmptyString.

(** [s.startsWith(p)] *)
Definition startsWith (s p : string) : bool := String.prefix p s.

(** [xs.join(sep)] *)
Fixpoint join (sep : string) (xs : list string) : string :=
  match xs with
  | [] => ""
  | [x] => x
  | x :: rest => x ++ sep ++ join sep rest
  end.

(** [xs.slice(-k)]: the last [k] elements, all of them when there are fewer. *)
Definition slice_last {A : Type} (k : nat) (xs : list A) : list A :=
  skipn (length xs - k) xs.

(** Truthiness of an optional string argument: absent and empty are falsy. *)
Definition truthy (s : option string) : bool :=
  match s with
  | Some v => negb (String.eqb v "")
  | None => false
  end.

(** [a || b] on strings. *)
Definition orElse (a b : string) : string :=
  if String.eqb a "" then b else a.

(** ** Constants of the class *)

Definition SESSION_TIMEOUT : Z := (30 * 60 * 1000)%Z.
Definition CLEANUP_PERIOD : Z := 60000%Z.
Definition MAX_LOGS : nat := 100.
Definition TEXT_LIMIT : nat := 1000.

Definition LAUNCH_ARGS : list string :=
  [ "--no-sandbox";
    "--disable-setuid-sandbox";
    "--disable-dev-shm-usage";
    "--disable-web-security";
    "--allow-running-insecure-content" ].

Definition USER_AGENT : string :=
  "Mozilla/5.0 (Macintosh; Intel Mac OS X 10_15_7) AppleWebKit/537.36 (KHTML, like Gecko) Chrome/120.0.0.0 Safari/537.36".

Definition CONSOLE_LOGS_URI : string := "puppeteer://console-logs".
Definition CURRENT_PAGE_URI : string := "puppeteer://current-page".

Definition URL_ERROR : string := "URL must start with http:// or https://".

(** ** A state-and-exception monad for the asynchronous methods

    A method either returns a value or throws, and in both cases leaves a
    new state behind. *)

Definition M (S A : Type) : Type := S -> (Thrown + A) * S.

Definition ret {S A : Type} (a : A) : M S A := fun s => (inr a, s).

Definition throw {S A : Type} (e : Thrown) : M S A := fun s => (inl e, s).

Definition bind {S A B : Type} (m : M S A) (k : A -> M S B) : M S B :=
  fun s =>
    match m s with
    | (inl e, s') => (inl e, s')
    | (inr a, s') => k a s'
    end.

(** [try { m } catch (error) { h error }] *)
Definition try_catch {S A : Type} (m : M S A) (h : Thrown -> M S A) : M S A :=
  fun s =>
    match m s with
    | (inl e, s') => h e s'
    | (inr a, s') => (inr a, s')
    end.

Notation "x <- m ;; k" := (bind m (fun x => k))
  (at level 61, m at next level, right associativity).
Notation "m ;; k" := (bind m (fun _ => k))
  (at level 61, right associativity).

Section ServerModel.

Context {P : Platform}.

(** The fields of [PuppeteerMcpServer] that change, with the world the
    server runs in and the primitives invoked so far, oldest first. *)
Record Server : Type := mkServer {
  session : option BrowserSession;
  consoleLogs : list string;
  world : World;
  invoked : list (Invocation JsValue)
}.

Definition Task (A : Type) : Type := M Server A.

(** String conversion of a caught value, as in a template literal. *)
Definition toString (t : Thrown) : string :=
  match t with
  | JsError m => "Error: " ++ m
  | McpError c m => mcpErrorToString c m
  | Exception r => r
  end.

(** One call into the engine: the world answers and moves on, and the call
    is recorded. *)
Definition perform {A : Type} (q : Prim JsValue A) : Task A :=
  fun s =>
    let (r, w') := respond A q (world s) in
    let s' := mkServer (session s) (consoleLogs s) w'
                       (invoked s ++ [Invoked q]) in
    match r with
    | inl err => (inl (Exception err), s')
    | inr a => (inr a, s')
    end.

Definition setSession (v : option BrowserSession) : Task unit :=
  fun s => (inr tt, mkServer v (consoleLogs s) (world s) (invoked s)).

Definition setConsoleLogs (v : list string) : Task unit :=
  fun s => (inr tt, mkServer (session s) v (world s) (invoked s)).

Definition now : Task Z :=
  fun s => (inr (dateNow (world s)), s).

(** [this.session!.page]: reading through a null session is a TypeError. *)
Definition sessionPage : Task Page :=
  fun s =>
    match session s with
    | Some sess => (inr (page sess), s)
    | None =>
        (inl (Exception
                "TypeError: Cannot read properties of null (reading 'page')"), s)
    end.

(** *** The console subscription *)

Definition logEntry (msg : ConsoleMessage) : string :=
  "[" ++ msg_type msg ++ "] " ++ msg_text msg.

(** The body of [page.on('console', ...)] on the log array. *)
Definition pushLog (logs : list string) (msg : ConsoleMessage) : list string :=
  let logs1 := (logs ++ [logEntry msg])%list in
  if Nat.ltb MAX_LOGS (length logs1) then slice_last MAX_LOGS logs1 else logs1.

Definition onConsole (msg : ConsoleMessage) : Server -> Server :=
  fun s => mkServer (session s) (pushLog (consoleLogs s) msg) (world s) (invoked s).

(** *** Session lifecycle *)

Definition createBrowserSession : Task unit :=
  try_catch
    (b <- perform (Launch false LAUNCH_ARGS) ;;
     p <- perform (NewPage b) ;;
     perform (SetUserAgent p USER_AGENT) ;;
     perform (SetViewport p 1280 720) ;;
     perform (OnConsole p) ;;
     t <- now ;;
     setSession (Some (mkSession b p t)))
    (fun error =>
       throw (McpError InternalError
                ("Failed to create browser session: " ++ toString error))).

Definition ensureBrowser : Task unit :=
  fun s =>
    match session s with
    | None => createBrowserSession s
    | Some sess =>
        if negb (connected (world s) (browser sess))
        then createBrowserSession s
        else (inr tt, s)
    end.

Definition updateActivity : Task unit :=
  fun s =>
    match session s with
    | Some sess =>
        setSession
          (Some (mkSession (browser sess) (page sess) (dateNow (world s)))) s
    | None => (inr tt, s)
    end.

Definition closeBrowser : Task unit :=
  fun s =>
    match session s with
    | Some sess =>
        (try_catch (perform (BrowserClose (browser sess)))
                   (fun _ => ret tt) ;;
         setSession None ;;
         setConsoleLogs []) s
    | None => (inr tt, s)
    end.

(** The callback of [startCleanupTimer], run every [CLEANUP_PERIOD]
    milliseconds. *)
Definition cleanupTick : Task unit :=
  fun s =>
    match session s with
    | Some sess =>
        if (SESSION_TIMEOUT <? dateNow (world s) - lastActivity sess)%Z
        then closeBrowser s
        else (inr tt, s)
    | None => (inr tt, s)
    end.

(** *** Resources *)

Record ResourceEntry : Type := mkResourceEntry {
  re_uri : string;
  re_mimeType : string;
  re_name : string;
  re_description : string
}.

Definition listResources : list ResourceEntry :=
  [ mkResourceEntry CONSOLE_LOGS_URI "text/plain" "Console Logs"
      "Browser console logs from the current session";
    mkResourceEntry CURRENT_PAGE_URI "application/json" "Current Page Info"
      "Information about the currently loaded page" ].

(** [JSON.stringify({ error: 'No browser session active' }, null, 2)] *)
Definition noSessionJson : string :=
  "{" ++ nl ++ "  " ++ dq ++ "error" ++ dq ++ ": "
      ++ dq ++ "No browser session active" ++ dq ++ nl ++ "}".

(** [JSON.stringify({ url, title, sessionActive: true }, null, 2)] *)
Definition pageInfoJson (url title : string) : string :=
  "{" ++ nl ++ "  " ++ dq ++ "url" ++ dq ++ ": " ++ jsonString url ++ "," ++ nl
      ++ "  " ++ dq ++ "title" ++ dq ++ ": " ++ jsonString title ++ "," ++ nl
      ++ "  " ++ dq ++ "sessionActive" ++ dq ++ ": true" ++ nl ++ "}".

Definition readResource (uri : string) : Task (list ResourceContent) :=
  try_catch
    (if String.eqb uri CONSOLE_LOGS_URI then
       fun s =>
         (inr [mkResourceContent uri "text/plain"
                 (orElse (join nl (consoleLogs s)) "No console logs available")],
          s)
     else if String.eqb uri CURRENT_PAGE_URI then
       fun s =>
         match session s with
         | None =>
             (inr [mkResourceContent uri "application/json" noSessionJson], s)
         | Some sess =>
             (url <- perform (PageUrl (page sess)) ;;
              title <- perform (PageTitle (page sess)) ;;
              ret [mkResourceContent uri "application/json"
                     (pageInfoJson url title)]) s
         end
     else
       throw (McpError InvalidRequest ("Unknown resource: " ++ uri)))
    (fun error =>
       throw (McpError InternalError
                ("Failed to read resource " ++ uri ++ ": " ++ toString error))).

(** *** Tools *)

(** A selector that passes [if (selector)]. *)
Definition given (selector : option string) : option string :=
  match selector with
  | Some v => if truthy selector then Some v else None
  | None => None
  end.

Definition withDefault {A : Type} (d : A) (o : option A) : A :=
  match o with
  | Some v => v
  | None => d
  end.

Definition validUrl (url : string) : bool :=
  startsWith url "http://" || startsWith url "https://".

(** The page text as [get-text] reports it without a selector:
    [text.substring(0, 1000)] and [text.length] on code units. *)
Definition pageText (text : JsString) : JsString :=
  (unitsOf "Page text: " ++ firstn TEXT_LIMIT text
     ++ (if Nat.ltb TEXT_LIMIT (length text) then unitsOf "..." else []))%list.

(** The [switch] of the CallTool handler, inside its [try]. *)
Definition toolBody (req : ToolRequest) : Task ToolResult :=
  match req with
  | Navigate url =>
      ensureBrowser ;;
      (if negb (startsWith url "http://") && negb (startsWith url "https://")
       then throw (JsError URL_ERROR)
       else ret tt) ;;
      p <- sessionPage ;;
      perform (Goto p url "networkidle2") ;;
      updateActivity ;;
      ret [TextContent ("Successfully navigated to " ++ url)]
  | Screenshot selector fullPage =>
      let fullPage := withDefault false fullPage in
      ensureBrowser ;;
      screenshot <-
        match given selector with
        | Some sel =>
            p <- sessionPage ;;
            element <- perform (Query p sel) ;;
            match element with
            | None => throw (JsError ("Element not found: " ++ sel))
            | Some el => perform (ElementScreenshot el)
            end
        | None =>
            p <- sessionPage ;;
            perform (PageScreenshot p fullPage)
        end ;;
      updateActivity ;;
      ret [ImageContent screenshot "image/png";
           TextContent
             match given selector with
             | Some sel => "Screenshot taken of element: " ++ sel
             | None =>
                 "Screenshot taken of "
                   ++ (if fullPage then "full page" else "viewport")
             end]
  | ClickTool selector =>
      ensureBrowser ;;
      p <- sessionPage ;;
      perform (Click p selector None) ;;
      updateActivity ;;
      ret [TextContent ("Successfully clicked element: " ++ selector)]
  | TypeTool selector text clear =>
      let clear := withDefault true clear in
      ensureBrowser ;;
      (if clear
       then p <- sessionPage ;; perform (Click p selector (Some 3%Z))
       else ret tt) ;;
      p <- sessionPage ;;
      perform (TypeInto p selector text) ;;
      updateActivity ;;
      ret [TextContent
             ("Successfully typed " ++ dq ++ text ++ dq ++ " into " ++ selector)]
  | WaitForElement selector timeout =>
      let timeout := withDefault 5000%Z timeout in
      ensureBrowser ;;
      p <- sessionPage ;;
      perform (WaitForSelector p selector timeout) ;;
      updateActivity ;;
      ret [TextContent ("Element found: " ++ selector)]
  | EvaluateJs code =>
      ensureBrowser ;;
      p <- sessionPage ;;
      result <- perform (Evaluate p code) ;;
      updateActivity ;;
      match jsonValue result with
      | inl err => throw (Exception err)
      | inr json =>
          ret [TextContent
                 ("JavaScript executed successfully. Result: " ++ json)]
      end
  | GetText selector =>
      ensureBrowser ;;
      match given selector with
      | Some sel =>
          p <- sessionPage ;;
          element <- perform (Query p sel) ;;
          text <-
            match element with
            | None => throw (JsError ("Element not found: " ++ sel))
            | Some _ =>
                p' <- sessionPage ;;
                perform (EvalTextContent p' sel)
            end ;;
          updateActivity ;;
          ret [TextContent ("Text from " ++ sel ++ ": " ++ text)]
      | None =>
          p <- sessionPage ;;
          text <- perform (BodyTextContent p) ;;
          updateActivity ;;
          ret [TextContent (utf8 (pageText text))]
      end
  | CloseBrowser =>
      closeBrowser ;;
      ret [TextContent "Browser session closed"]
  | OtherTool name =>
      throw (McpError MethodNotFound ("Unknown tool: " ++ name))
  end.

Definition callTool (req : ToolRequest) : Task ToolResult :=
  try_catch (toolBody req)
    (fun error =>
       throw (McpError InternalError
                ("Tool execution failed: " ++ toString error))).

(** *** The event loop

    Everything that can happen to a running server, one event at a time.
    Each handler is run to completion before the next event is taken: the
    console callback and the timer fire between handlers, not at their
    suspension points.  The world may change on its own (a browser that
    crashes, time that passes); a termination signal closes the session
    before the process exits. *)
Inductive Event : Type :=
  | EvCallTool (req : ToolRequest)
  | EvReadResource (uri : string)
  | EvConsole (msg : ConsoleMessage)
  | EvTick
  | EvSignal
  | EvWorld (w : World).

Definition step (s : Server) (ev : Event) : Server :=
  match ev with
  | EvCallTool req => snd (callTool req s)
  | EvReadResource uri => snd (readResource uri s)
  | EvConsole msg => onConsole msg s
  | EvTick => snd (cleanupTick s)
  | EvSignal => snd (closeBrowser s)
  | EvWorld w => mkServer (session s) (consoleLogs s) w (invoked s)
  end.

Definition run (s : Server) (evs : list Event) : Server :=
  fold_left step evs s.

(** The server as the constructor leaves it. *)
Definition initial (w : World) : Server := mkServer None [] w [].

(** The primitives invoked between two states of one run. *)
Definition invoked_since (s s' : Server) : list (Invocation JsValue) :=
  skipn (length (invoked s)) (invoked s').

(** What [createBrowserSession] invokes when every step succeeds. *)
Definition creation_calls (b : Browser) (p : Page) : list (Invocation JsValue) :=
  [ Invoked (Launch false LAUNCH_ARGS); Invoked (NewPage b);
    Invoked (SetUserAgent p USER_AGENT); Invoked (SetViewport p 1280 720);
    Invoked (OnConsole p) ].

(** The primitives of session creation. *)
Definition is_creation (i : Invocation JsValue) : bool :=
  match i with
  | Invoked q =>
      match q with
      | Launch _ _ | NewPage _ | SetUserAgent _ _ | SetViewport _ _ _
      | OnConsole _ => true
      | _ => false
      end
  end.

(** Every invocation of [k] that acts on a page acts on [p]. *)
Definition acts_on (p : Page) (k : list (Invocation JsValue)) : bool :=
  forallb (fun i => match page_of i with
                    | Some q => Nat.eqb q p
                    | None => true
                    end) k.

(** A browser being closed. *)
Definition is_close (i : Invocation JsValue) : bool :=
  match i with
  | Invoked q => match q with BrowserClose _ => true | _ => false end
  end.

(** The two queries of the current-page resource. *)
Definition is_page_query (i : Invocation JsValue) : bool :=
  match i with
  | Invoked q =>
      match q with
      | PageUrl _ | PageTitle _ => true
      | _ => false
      end
  end.

(** The stored session went through the whole of its creation: the calls
    that launch its browser, open its page, set the page up and subscribe to
    its console are among the invoked ones. *)
Definition configured (s : Server) : Prop :=
  match session s with
  | Some sess =>
      incl (creation_calls (browser sess) (page sess)) (invoked s)
  | None => True
  end.


End ServerModel.

(** ** The tool catalog and the dispatch on the tool name

    The ListTools handler advertises each tool with a JSON schema; the
    CallTool handler switches on the name and destructures the arguments
    under a type cast.  [decode] is that switch and destructuring, returning
    [None] for an arguments object that does not have the type the cast
    declares. *)

Inductive ArgValue : Type :=
  | AString (s : string)
  | ABoolean (b : bool)
  | ANumber (z : Z).

(** The arguments object of a request, keys unique. *)
Definition Arguments : Type := list (string * ArgValue).

Fixpoint getArg (key : string) (args : Arguments) : option ArgValue :=
  match args with
  | [] => None
  | (k, v) :: rest => if String.eqb k key then Some v else getArg key rest
  end.

Inductive Field (A : Type) : Type :=
  | Absent
  | Present (v : A)
  | IllTyped.

Arguments Absent {A}.
Arguments Present {A}.
Arguments IllTyped {A}.

Definition stringField (key : string) (args : Arguments) : Field string :=
  match getArg key args with
  | None => Absent
  | Some (AString s) => Present s
  | Some _ => IllTyped
  end.

Definition booleanField (key : string) (args : Arguments) : Field bool :=
  match getArg key args with
  | None => Absent
  | Some (ABoolean b) => Present b
  | Some _ => IllTyped
  end.

Definition numberField (key : string) (args : Arguments) : Field Z :=
  match getArg key args with
  | None => Absent
  | Some (ANumber z) => Present z
  | Some _ => IllTyped
  end.

(** A member the cast declares without [?]. *)
Definition mandatory {A : Type} (f : Field A) : option A :=
  match f with
  | Present v => Some v
  | _ => None
  end.

(** A member the cast declares with [?]. *)
Definition optionalField {A : Type} (f : Field A) : option (option A) :=
  match f with
  | Absent => Some None
  | Present v => Some (Some v)
  | IllTyped => None
  end.

Definition decode (name : string) (args : Arguments) : option ToolRequest :=
  if String.eqb name "navigate" then
    match mandatory (stringField "url" args) with
    | Some url => Some (Navigate url)
    | None => None
    end
  else if String.eqb name "screenshot" then
    match optionalField (stringField "selector" args),
          optionalField (booleanField "fullPage" args) with
    | Some selector, Some fullPage => Some (Screenshot selector fullPage)
    | _, _ => None
    end
  else if String.eqb name "click" then
    match mandatory (stringField "selector" args) with
    | Some selector => Some (ClickTool selector)
    | None => None
    end
  else if String.eqb name "type" then
    match mandatory (stringField "selector" args),
          mandatory (stringField "text" args),
          optionalField (booleanField "clear" args) with
    | Some selector, Some text, Some clear => Some (TypeTool selector text clear)
    | _, _, _ => None
    end
  else if String.eqb name "wait-for-element" then
    match mandatory (stringField "selector" args),
          optionalField (numberField "timeout" args) with
    | Some selector, Some timeout => Some (WaitForElement selector timeout)
    | _, _ => None
    end
  else if String.eqb name "evaluate-js" then
    match mandatory (stringField "code" args) with
    | Some code => Some (EvaluateJs code)
    | None => None
    end
  else if String.eqb name "get-text" then
    match optionalField (stringField "selector" args) with
    | Some selector => Some (GetText selector)
    | None => None
    end
  else if String.eqb name "close-browser" then Some CloseBrowser
  else Some (OtherTool name).

Record SchemaProperty : Type := mkProperty {
  sp_name : string;
  sp_type : string;
  sp_description : string
}.

Record ToolEntry : Type := mkToolEntry {
  te_name : string;
  te_description : string;
  te_properties : list SchemaProperty;
  te_required : list string
}.

Definition listTools : list ToolEntry :=
  [ mkToolEntry "navigate" "Navigate to a URL in the browser"
      [ mkProperty "url" "string" "The URL to navigate to" ]
      [ "url" ];
    mkToolEntry "screenshot"
      "Take a screenshot of the current page or a specific element"
      [ mkProperty "selector" "string"
          "Optional CSS selector to screenshot a specific element";
        mkProperty "fullPage" "boolean"
          "Take a full page screenshot (default: false)" ]
      [];
    mkToolEntry "click" "Click an element on the page"
      [ mkProperty "selector" "string" "CSS selector of the element to click" ]
      [ "selector" ];
    mkToolEntry "type" "Type text into an input field"
      [ mkProperty "selector" "string" "CSS selector of the input field";
        mkProperty "text" "string" "Text to type";
        mkProperty "clear" "boolean"
          "Clear the field before typing (default: true)" ]
      [ "selector"; "text" ];
    mkToolEntry "wait-for-element" "Wait for an element to appear on the page"
      [ mkProperty "selector" "string" "CSS selector to wait for";
        mkProperty "timeout" "number"
          "Maximum time to wait in milliseconds (default: 5000)" ]
      [ "selector" ];
    mkToolEntry "evaluate-js" "Execute JavaScript code in the browser context"
      [ mkProperty "code" "string" "JavaScript code to execute" ]
      [ "code" ];
    mkToolEntry "get-text" "Get text content from an element or the page"
      [ mkProperty "selector" "string"
          "CSS selector to get text from (optional - gets page text if not provided)" ]
      [];
    mkToolEntry "close-browser" "Close the current browser session" [] [] ].

(** ** A scripted platform

    A small world to run the server in: a clock, a switch that decides
    whether the engine can launch, a counter for fresh handles, the browsers
    that are still connected and the text of the document.  Errors convert
    to strings the way the SDK's [McpError] does. *)

Record Sim : Type := mkSim {
  sim_clock : Z;
  sim_launchable : bool;
  sim_fresh : nat;
  sim_live : list Browser;
  sim_body : string
}.

Definition sim_code (c : ErrorCode) : string :=
  match c with
  | InvalidRequest => "-32600"
  | MethodNotFound => "-32601"
  | InternalError => "-32603"
  end.

Definition sim_respond (A : Type) (q : Prim string A) (w : Sim)
  : (string + A) * Sim :=
  match q in Prim _ T return (string + T) * Sim with
  | Launch _ _ =>
      if sim_launchable w
      then (inr (sim_fresh w),
            mkSim (sim_clock w) (sim_launchable w) (S (sim_fresh w))
                  (sim_fresh w :: sim_live w) (sim_body w))
      else (inl "Error: Failed to launch the browser process!", w)
  | NewPage _ =>
      (inr (sim_fresh w),
       mkSim (sim_clock w) (sim_launchable w) (S (sim_fresh w))
             (sim_live w) (sim_body w))
  | SetUserAgent _ _ => (inr tt, w)
  | SetViewport _ _ _ => (inr tt, w)
  | OnConsole _ => (inr tt, w)
  | Goto _ _ _ => (inr tt, w)
  | Query _ sel =>
      (inr (if String.eqb sel "#missing" then None else Some 0), w)
  | ElementScreenshot _ => (inr "iVBORw0KGgo=", w)
  | PageScreenshot _ _ => (inr "iVBORw0KGgo=", w)
  | Click _ _ _ => (inr tt, w)
  | TypeInto _ _ _ => (inr tt, w)
  | WaitForSelector _ _ _ => (inr tt, w)
  | Evaluate _ _ => (inr "null", w)
  | EvalTextContent _ _ => (inr (sim_body w), w)
  | BodyTextContent _ => (inr (unitsOf (sim_body w)), w)
  | PageUrl _ => (inr "about:blank", w)
  | PageTitle _ => (inr "Untitled", w)
  | BrowserClose b =>
      (inr tt,
       mkSim (sim_clock w) (sim_launchable w) (sim_fresh w)
             (filter (fun x => negb (Nat.eqb x b)) (sim_live w)) (sim_body w))
  end.

Definition sim : Platform := {|
  World := Sim;
  JsValue := string;
  respond := sim_respond;
  connected := fun w b => existsb (Nat.eqb b) (sim_live w);
  dateNow := sim_clock;
  mcpErrorToString := fun c m => "McpError: MCP error " ++ sim_code c ++ ": " ++ m;
  jsonString := fun s => dq ++ s ++ dq;
  jsonValue := fun v => inr v
|}.

(** A string of [n] copies of one character, for documents of a given
    length. *)
Fixpoint filler (n : nat) : string :=
  match n with
  | O => ""
  | S k => String "x"%char (filler k)
  end.

(** Console messages numbered from [k]. *)
Fixpoint numbered (k n : nat) : list ConsoleMessage :=
  match n with
  | O => []
  | S m => mkConsoleMessage "log" (filler k) :: numbered (S k) m
  end.

(** Servers in the scripted world: one freshly constructed; one whose engine
    cannot launch; one whose stored session belongs to a browser that is no
    longer connected; one whose session has been idle since time 0, looked
    at when the clock shows [t]; one with a live session and an engine that
    cannot launch another; one in front of a long document. *)
Definition fresh_server : Server (P := sim) :=
  initial (P := sim) (mkSim 0 true 0 [] "hello").

Definition stranded_server : Server (P := sim) :=
  initial (P := sim) (mkSim 0 false 0 [] "").

Definition stale_server : Server (P := sim) :=
  mkServer (P := sim) (Some (mkSession 0 1 0)) ["[log] hello"]
    (mkSim 5000 true 2 [] "hello") [].

Definition idle_server (t : Z) : Server (P := sim) :=
  mkServer (P := sim) (Some (mkSession 0 1 0)) ["[log] hello"]
    (mkSim t true 2 [0] "hello") [].


Definition long_document_server : Server (P := sim) :=
  initial (P := sim) (mkSim 0 true 0 [] (filler 1001)).


(** A second scripted platform: the engine of [sim], except that it can
    launch a browser but cannot open a page in it. *)
Definition pageless_respond (A : Type) (q : Prim string A) (w : Sim)
  : (string + A) * Sim :=
  match q in Prim _ T return (string + T) * Sim with
  | NewPage _ => (inl "Error: Protocol error (Target.createTarget)", w)
  | other => sim_respond _ other w
  end.

Definition pageless : Platform := {|
  World := Sim;
  JsValue := string;
  respond := pageless_respond;
  connected := fun w b => existsb (Nat.eqb b) (sim_live w);
  dateNow := sim_clock;
  mcpErrorToString := fun c m => "McpError: MCP error " ++ sim_code c ++ ": " ++ m;
  jsonString := fun s => dq ++ s ++ dq;
  jsonValue := fun v => inr v
|}.

Definition pageless_server : Server (P := pageless) :=
  initial (P := pageless) (mkSim 0 true 0 [] "").




(** * The Convex MCP server (src/mcp-servers/convex/index.ts)

    A server without fields of its own: every handler passes its request to
    the Convex client.  The database behind the client is the [Backend]
    class. *)

Module Convex.

(** An object passed to the client: its members in order, [None] for a
    member that is [undefined]. *)
Definition Params : Type := list (string * option string).

(** The two entry points of [ConvexHttpClient] the server uses, with the
    function name and the arguments object. *)
Inductive Call : Type :=
  | Query (fn : string) (params : Params)
  | Mutation (fn : string) (params : Params).

Definition is_mutation (c : Call) : bool :=
  match c with
  | Mutation _ _ => true
  | Query _ _ => false
  end.

Class Backend : Type := {
  (** the state of the database *)
  Db : Type;
  (** what a function of the deployment returns *)
  DbValue : Type;
  (** the client's answer: a value, or a thrown exception given by its
      string conversion *)
  dbAnswer : Call -> Db -> (string + DbValue) * Db;
  (** the string conversion of an [McpError] *)
  dbErrorToString : ErrorCode -> string -> string;
  (** [JSON.stringify(v, null, 2)]: the text, or the TypeError thrown for a
      value that has no JSON form *)
  stringify2 : DbValue -> string + string;
  (** the conversion of a value inside a template literal *)
  templateOf : DbValue -> string;
  (** the conversion of [v.length] inside a template literal, or the
      TypeError of reading it *)
  lengthOf : DbValue -> string + string
}.

Inductive Request : Type :=
  | CreateTask (text : string)
  | ToggleTask (id : string)
  | CreateUser (name email : string) (avatarUrl : option string)
  | CreateNote (title content userId : string)
  | ListUserNotes (userId : string)
  | UnknownTool (name : string).

Definition TASKS_URI : string := "convex://tasks".
Definition USERS_URI : string := "convex://users".
Definition NOTES_URI : string := "convex://notes".

Definition NOTES_HINT : string :=
  "Notes require a userId parameter. Use the create-note or list-user-notes tools.".

(** [process.env.CONVEX_URL || ''], the address the client is built with. *)
Definition clientAddress (env : option string) : string :=
  match env with
  | Some v => orElse v ""
  | None => ""
  end.

Section Handlers.

Context {B : Backend}.

(** The database and the calls made to it so far, oldest first. *)
Record State : Type := mkState {
  db : Db;
  calls : list Call
}.

Definition Task (A : Type) : Type := M State A.

Definition toString (t : Thrown) : string :=
  match t with
  | JsError m => "Error: " ++ m
  | McpError c m => dbErrorToString c m
  | Exception r => r
  end.

Definition request (c : Call) : Task DbValue :=
  fun s =>
    let (r, d') := dbAnswer c (db s) in
    let s' := mkState d' (calls s ++ [c]) in
    match r with
    | inl err => (inl (Exception err), s')
    | inr v => (inr v, s')
    end.

Definition listResources : list ResourceEntry :=
  [ mkResourceEntry TASKS_URI "application/json" "Tasks Database"
      "All tasks from the Convex database";
    mkResourceEntry USERS_URI "application/json" "Users Database"
      "All users from the Convex database";
    mkResourceEntry NOTES_URI "application/json" "Notes Database"
      "All notes from the Convex database" ].

Definition readResource (uri : string) : Task (list ResourceContent) :=
  try_catch
    (if String.eqb uri TASKS_URI then
       tasks <- request (Query "tasks:list" []) ;;
       match stringify2 tasks with
       | inl err => throw (Exception err)
       | inr json => ret [mkResourceContent uri "application/json" json]
       end
     else if String.eqb uri USERS_URI then
       users <- request (Query "users:list" []) ;;
       match stringify2 users with
       | inl err => throw (Exception err)
       | inr json => ret [mkResourceContent uri "application/json" json]
       end
     else if String.eqb uri NOTES_URI then
       ret [mkResourceContent uri "application/json" NOTES_HINT]
     else
       throw (McpError InvalidRequest ("Unknown resource: " ++ uri)))
    (fun error =>
       throw (McpError InternalError
                ("Failed to read resource " ++ uri ++ ": " ++ toString error))).

Definition toolBody (req : Request) : Task ToolResult :=
  match req with
  | CreateTask text =>
      taskId <- request (Mutation "tasks:create" [("text", Some text)]) ;;
      ret [TextContent
             ("Task created successfully with ID: " ++ templateOf taskId)]
  | ToggleTask id =>
      request (Mutation "tasks:toggle" [("id", Some id)]) ;;
      ret [TextContent ("Task " ++ id ++ " toggled successfully")]
  | CreateUser name email avatarUrl =>
      userId <- request (Mutation "users:create"
                           [("name", Some name); ("email", Some email);
                            ("avatarUrl", avatarUrl)]) ;;
      ret [TextContent
             ("User created successfully with ID: " ++ templateOf userId)]
  | CreateNote title content userId =>
      noteId <- request (Mutation "notes:create"
                           [("title", Some title); ("content", Some content);
                            ("userId", Some userId)]) ;;
      ret [TextContent
             ("Note created successfully with ID: " ++ templateOf noteId)]
  | ListUserNotes userId =>
      notes <- request (Query "notes:listByUser" [("userId", Some userId)]) ;;
      match lengthOf notes with
      | inl err => throw (Exception err)
      | inr n =>
          match stringify2 notes with
          | inl err => throw (Exception err)
          | inr json =>
              ret [TextContent
                     ("Found " ++ n ++ " notes for user " ++ userId ++ ":"
                        ++ nl ++ json)]
          end
      end
  | UnknownTool name =>
      throw (McpError MethodNotFound ("Unknown tool: " ++ name))
  end.

Definition callTool (req : Request) : Task ToolResult :=
  try_catch (toolBody req)
    (fun error =>
       throw (McpError InternalError
                ("Tool execution failed: " ++ toString error))).

(** The calls made between two states of one run. *)
Definition calls_since (s s' : State) : list Call :=
  skipn (length (calls s)) (calls s').

End Handlers.

(** A scripted database: a switch that makes every call fail, and a counter
    for the identifiers it hands out. *)
Record SimDb : Type := mkSimDb {
  sd_down : bool;
  sd_next : nat
}.

Definition sim_answer (c : Call) (d : SimDb) : (string + string) * SimDb :=
  if sd_down d
  then (inl "Error: Could not reach the deployment", d)
  else
    match c with
    | Query _ _ => (inr "[]", d)
    | Mutation _ _ =>
        (inr ("id" ++ filler (sd_next d)), mkSimDb false (S (sd_next d)))
    end.

Definition simBackend : Backend := {|
  Db := SimDb;
  DbValue := string;
  dbAnswer := sim_answer;
  dbErrorToString :=
    fun c m => "McpError: MCP error " ++ sim_code c ++ ": " ++ m;
  stringify2 := fun v => inr v;
  templateOf := fun v => v;
  lengthOf := fun _ => inr "0"
|}.

Definition sim_state : State (B := simBackend) :=
  mkState (B := simBackend) (mkSimDb false 0) [].

Definition down_state : State (B := simBackend) :=
  mkState (B := simBackend) (mkSimDb true 0) [].

End Convex.

(** * Properties *)

Section Properties.

Context {P : Platform}.

(** ** The monad on one step *)

Lemma perform_eq (A : Type) (q : Prim JsValue A) (s : Server) :
  perform q s =
  (match fst (respond A q (world s)) with
   | inl err => inl (Exception err)
   | inr a => inr a
   end,
   mkServer (session s) (consoleLogs s) (snd (respond A q (world s)))
            (invoked s ++ [Invoked q])).
Proof.
  unfold perform. destruct (respond A q (world s)) as [[err | a] w']; reflexivity.
Qed.

(** Runs a task symbolically: unfolds the monad and splits on every answer
    of the engine. *)
Ltac step_engine :=
  match goal with
  | |- context [respond ?A ?q ?w] =>
      let r := fresh "r" in
      let w' := fresh "w" in
      let E := fresh "E" in
      destruct (respond A q w) as [[r | r] w'] eqn:E; cbn [fst snd] in *
  end.

Ltac unfold_task :=
  unfold bind, try_catch, ret, throw, setSession, setConsoleLogs, now,
    sessionPage, updateActivity in *;
  cbn [session consoleLogs world invoked fst snd] in *.

(** ** Session creation *)

Lemma create_cases (s : Server) :
  (exists b p s1,
      createBrowserSession s = (inr tt, s1)
      /\ session s1 = Some (mkSession b p (dateNow (world s1)))
      /\ consoleLogs s1 = consoleLogs s
      /\ fst (respond _ (Launch false LAUNCH_ARGS) (world s)) = inr b
      /\ invoked s1 = (invoked s ++ creation_calls b p)%list)
  \/ (exists err s1 k,
      createBrowserSession s =
        (inl (McpError InternalError
                ("Failed to create browser session: " ++ err)), s1)
      /\ session s1 = session s
      /\ consoleLogs s1 = consoleLogs s
      /\ invoked s1 = (invoked s ++ Invoked (Launch false LAUNCH_ARGS) :: k)%list
      /\ forallb is_creation k = true).
Proof.
  unfold createBrowserSession. unfold_task. unfold perform.
  repeat (step_engine; cbn [session consoleLogs world invoked fst snd toString]).
  all: try solve [ right; do 3 eexists; repeat split; try reflexivity;
              cbn [session consoleLogs world invoked];
              rewrite <- ?app_assoc; cbn [app]; reflexivity ].
  left; do 3 eexists; repeat split; try reflexivity.
  cbn [invoked]. rewrite <- !app_assoc. reflexivity.
Qed.

Lemma ensureBrowser_unfold (s : Server) :
  ensureBrowser s =
  match session s with
  | None => createBrowserSession s
  | Some sess =>
      if connected (world s) (browser sess)
      then (inr tt, s)
      else createBrowserSession s
  end.
Proof.
  unfold ensureBrowser. destruct (session s) as [sess |]; [| reflexivity].
  destruct (connected (world s) (browser sess)); reflexivity.
Qed.

Lemma create_keeps_logs (s : Server) :
  consoleLogs (snd (createBrowserSession s)) = consoleLogs s.
Proof.
  destruct (create_cases s) as [(b & p & s1 & E & _ & L & _) | (e & s1 & k & E & _ & L & _)];
    rewrite E; exact L.
Qed.

Lemma ensureBrowser_keeps_logs (s : Server) :
  consoleLogs (snd (ensureBrowser s)) = consoleLogs s.
Proof.
  rewrite ensureBrowser_unfold. destruct (session s) as [sess |].
  - destruct (connected (world s) (browser sess)); [reflexivity |].
    apply create_keeps_logs.
  - apply create_keeps_logs.
Qed.

(** A successful [ensureBrowser] leaves a session: the one that was there,
    seen connected, or one launched by this very call. *)
Lemma ensureBrowser_ok (s s1 : Server) :
  ensureBrowser s = (inr tt, s1) ->
  exists sess1,
    session s1 = Some sess1
    /\ ((s1 = s /\ connected (world s) (browser sess1) = true)
        \/ (fst (respond _ (Launch false LAUNCH_ARGS) (world s)) = inr (browser sess1)
            /\ invoked s1 = (invoked s ++ creation_calls (browser sess1) (page sess1))%list
            /\ lastActivity sess1 = dateNow (world s1))).
Proof.
  rewrite ensureBrowser_unfold. intros H.
  assert (C : createBrowserSession s = (inr tt, s1) ->
              exists sess1, session s1 = Some sess1
              /\ ((s1 = s /\ connected (world s) (browser sess1) = true)
        \/ (fst (respond _ (Launch false LAUNCH_ARGS) (world s)) = inr (browser sess1)
            /\ invoked s1 = (invoked s ++ creation_calls (browser sess1) (page sess1))%list
            /\ lastActivity sess1 = dateNow (world s1)))).
  { intros Hc.
    destruct (create_cases s) as [(b & p & s2 & E & Hs & _ & Hl & Hi) | (e & s2 & k & E & _)];
      rewrite E in Hc; [| discriminate].
    inversion Hc; subst s2. eexists; split; [exact Hs |].
    right. cbn. auto. }
  destruct (session s) as [sess |] eqn:Es; [| auto].
  destruct (connected (world s) (browser sess)) eqn:Ec; [| auto].
  inversion H; subst s1. exists sess. auto.
Qed.

(** ** The log buffer *)

Lemma slice_last_all {A : Type} (k : nat) (xs : list A) :
  length xs <= k -> slice_last k xs = xs.
Proof.
  intros H. unfold slice_last. replace (length xs - k) with 0 by lia. reflexivity.
Qed.

Lemma slice_last_length {A : Type} (k : nat) (xs : list A) :
  length (slice_last k xs) = Nat.min k (length xs).
Proof.
  unfold slice_last. rewrite length_skipn. lia.
Qed.

Lemma slice_last_app {A : Type} (k : nat) (xs ys : list A) :
  slice_last k (slice_last k xs ++ ys) = slice_last k (xs ++ ys).
Proof.
  unfold slice_last. rewrite !length_app, length_skipn.
  destruct (Nat.le_gt_cases (length xs) k) as [H | H].
  - replace (length xs - k) with 0 by lia. cbn [skipn].
    replace (length xs - 0) with (length xs) by lia. reflexivity.
  - rewrite !skipn_app, skipn_skipn, length_skipn.
    f_equal.
    + f_equal. lia.
    + f_equal. lia.
Qed.

Lemma pushLog_slice (logs : list string) (msg : ConsoleMessage) :
  pushLog logs msg = slice_last MAX_LOGS (logs ++ [logEntry msg]).
Proof.
  unfold pushLog. cbv zeta.
  destruct (Nat.ltb_spec MAX_LOGS (length (logs ++ [logEntry msg]))) as [H | H].
  - reflexivity.
  - symmetry. apply slice_last_all. exact H.
Qed.

Lemma pushLog_bounded (logs : list string) (msg : ConsoleMessage) :
  length (pushLog logs msg) <= MAX_LOGS.
Proof.
  rewrite pushLog_slice, slice_last_length. lia.
Qed.

(** With the buffer within capacity, one more message drops as many of the
    oldest entries as needed, none or one, and lands at the end. *)
Lemma pushLog_fifo (logs : list string) (msg : ConsoleMessage) :
  length logs <= MAX_LOGS ->
  pushLog logs msg =
  (skipn (length logs + 1 - MAX_LOGS) logs ++ [logEntry msg])%list.
Proof.
  intros H. rewrite pushLog_slice. unfold slice_last.
  rewrite length_app. cbn [length].
  rewrite skipn_app.
  replace (length logs + 1 - MAX_LOGS - length logs) with 0
    by (unfold MAX_LOGS in *; lia).
  reflexivity.
Qed.

Lemma console_run_logs (msgs : list ConsoleMessage) (s : Server) :
  consoleLogs (run s (map EvConsole msgs)) =
  fold_left pushLog msgs (consoleLogs s).
Proof.
  revert s. induction msgs as [| m msgs IH]; intros s; [reflexivity |].
  cbn [map]. unfold run in *. cbn [fold_left step]. rewrite IH. reflexivity.
Qed.

Lemma fold_pushLog_slice (msgs : list ConsoleMessage) (logs : list string) :
  length logs <= MAX_LOGS ->
  fold_left pushLog msgs logs = slice_last MAX_LOGS (logs ++ map logEntry msgs).
Proof.
  revert logs. induction msgs as [| m msgs IH]; intros logs H.
  - cbn. rewrite app_nil_r. symmetry. apply slice_last_all. exact H.
  - cbn [fold_left map]. rewrite IH by apply pushLog_bounded.
    rewrite pushLog_slice, slice_last_app, <- app_assoc. reflexivity.
Qed.

(** ** What the handlers do to the log buffer *)

Lemma closeBrowser_eq (s : Server) :
  closeBrowser s =
  match session s with
  | Some sess =>
      (inr tt,
       mkServer None []
         (snd (respond unit (BrowserClose (browser sess)) (world s)))
         (invoked s ++ [Invoked (BrowserClose (browser sess))]))
  | None => (inr tt, s)
  end.
Proof.
  unfold closeBrowser. destruct (session s) as [sess |]; [| reflexivity].
  unfold_task. rewrite perform_eq.
  destruct (fst (respond unit (BrowserClose (browser sess)) (world s))) as [e | []];
    reflexivity.
Qed.

Lemma closeBrowser_logs (s : Server) :
  consoleLogs (snd (closeBrowser s)) = consoleLogs s
  \/ consoleLogs (snd (closeBrowser s)) = [].
Proof.
  rewrite closeBrowser_eq. destruct (session s); cbn; auto.
Qed.

Ltac exec :=
  repeat
    (cbn [session consoleLogs world invoked fst snd] in *;
     match goal with
     | H : session ?s = _ |- context [session ?s] => rewrite H
     | |- context [match session ?s with _ => _ end] =>
         let E := fresh "Es" in destruct (session s) eqn:E
     | |- context [respond ?A ?q ?w] =>
         let r := fresh "r" in
         let w' := fresh "w" in
         let E := fresh "E" in
         destruct (respond A q w) as [[r | r] w'] eqn:E
     | |- context [jsonValue ?v] =>
         let E := fresh "Ej" in destruct (jsonValue v) eqn:E
     | |- context [match ?o with Some _ => _ | None => _ end] =>
         is_var o; destruct o
     | |- context [if ?b then _ else _] => is_var b; destruct b
     end).

Lemma toolBody_logs (req : ToolRequest) (s : Server) :
  consoleLogs (snd (toolBody req s)) = consoleLogs s
  \/ consoleLogs (snd (toolBody req s)) = [].
Proof.
  destruct req as [url | sel fp | sel | sel txt cl | sel tm | code | sel | | name];
    unfold toolBody.
  8: { unfold_task. destruct (closeBrowser_logs s) as [H | H];
       destruct (closeBrowser s) as [[e | []] s1]; cbn in *; auto. }
  8: { left; reflexivity. }
  all: unfold_task; pose proof (ensureBrowser_keeps_logs s) as L;
    destruct (ensureBrowser s) as [[e | []] s1]; cbn [fst snd] in *;
    [ left; exact L | ].
  all: left; rewrite <- L; clear L.
  all: unfold withDefault, perform.
  all: try destruct (given sel) as [sl |].
  all: try destruct (negb (startsWith url "http://") && negb (startsWith url "https://")).
  all: exec; try reflexivity.
  all: unfold perform; exec; reflexivity.
Qed.

Lemma callTool_logs (req : ToolRequest) (s : Server) :
  consoleLogs (snd (callTool req s)) = consoleLogs s
  \/ consoleLogs (snd (callTool req s)) = [].
Proof.
  unfold callTool, try_catch, throw.
  pose proof (toolBody_logs req s) as H.
  destruct (toolBody req s) as [[e | r] s1]; exact H.
Qed.

Lemma readResource_frame (uri : string) (s : Server) :
  session (snd (readResource uri s)) = session s
  /\ consoleLogs (snd (readResource uri s)) = consoleLogs s.
Proof.
  unfold readResource. unfold_task.
  destruct (String.eqb uri CONSOLE_LOGS_URI); [split; reflexivity |].
  destruct (String.eqb uri CURRENT_PAGE_URI); [| split; reflexivity].
  destruct (session s) as [sess |] eqn:Es; [| cbn; auto].
  unfold perform. exec; cbn; auto.
Qed.

Lemma cleanupTick_logs (s : Server) :
  consoleLogs (snd (cleanupTick s)) = consoleLogs s
  \/ consoleLogs (snd (cleanupTick s)) = [].
Proof.
  unfold cleanupTick. destruct (session s) as [sess |]; [| auto].
  destruct (SESSION_TIMEOUT <? dateNow (world s) - lastActivity sess)%Z; [| auto].
  apply closeBrowser_logs.
Qed.

Lemma step_bounded (s : Server) (ev : Event) :
  length (consoleLogs s) <= MAX_LOGS ->
  length (consoleLogs (step s ev)) <= MAX_LOGS.
Proof.
  intros H.
  assert (K : forall l : list string,
             l = consoleLogs s \/ l = [] -> length l <= MAX_LOGS).
  { intros l [-> | ->]; [exact H | cbn; lia]. }
  destruct ev as [req | uri | msg | | | w]; cbn [step].
  - apply K, callTool_logs.
  - apply K. left. apply readResource_frame.
  - apply pushLog_bounded.
  - apply K, cleanupTick_logs.
  - apply K, closeBrowser_logs.
  - exact H.
Qed.

Lemma run_bounded (evs : list Event) (s : Server) :
  length (consoleLogs s) <= MAX_LOGS ->
  length (consoleLogs (run s evs)) <= MAX_LOGS.
Proof.
  revert s. induction evs as [| ev evs IH]; intros s H; [exact H |].
  unfold run in *. cbn [fold_left]. apply IH, step_bounded, H.
Qed.

(** C2. The console log buffer never holds more than 100 entries: in every
    state the server reaches from its start, whatever the events, the buffer
    is within capacity; a further run of console events leaves exactly the
    100 most recent entries of the old buffer followed by the new ones; and
    a single event drops the oldest entry exactly when the buffer is full and
    puts the new entry last. *)
Theorem console_log_capacity
    (w : World) (evs : list Event) (msgs : list ConsoleMessage)
    (msg : ConsoleMessage) :
  let s := run (initial w) evs in
  length (consoleLogs s) <= 100
  /\ consoleLogs (run s (map EvConsole msgs)) =
       slice_last 100 (consoleLogs s ++ map logEntry msgs)
  /\ length (consoleLogs (run s (map EvConsole msgs))) <= 100
  /\ consoleLogs (onConsole msg s) =
       (skipn (length (consoleLogs s) + 1 - 100) (consoleLogs s)
          ++ [logEntry msg])%list
  /\ last (consoleLogs (onConsole msg s)) "" = logEntry msg.
Proof.
  intros s.
  assert (B : length (consoleLogs s) <= MAX_LOGS).
  { apply run_bounded. cbn. lia. }
  assert (F : consoleLogs (onConsole msg s) =
       (skipn (length (consoleLogs s) + 1 - 100) (consoleLogs s)
          ++ [logEntry msg])%list).
  { cbn [onConsole consoleLogs]. apply pushLog_fifo. exact B. }
  split; [exact B |].
  split; [rewrite console_run_logs; apply fold_pushLog_slice; exact B |].
  split; [apply (run_bounded (map EvConsole msgs) s B) |].
  split; [exact F |].
  rewrite F. apply last_last.
Qed.

(** ** Closing the session *)

(** C6. [closeBrowser] is idempotent and best-effort: it never throws; with
    a session it invokes the browser's close once, whatever the engine
    answers, and leaves no session and an empty log buffer; without a session
    it changes nothing; run twice in a row it does what one run does, and the
    close-browser tool returns its confirmation in every state. *)
Theorem closeBrowser_idempotent (s : Server) :
  fst (closeBrowser s) = inr tt
  /\ session (snd (closeBrowser s)) = None
  /\ match session s with
     | Some sess =>
         snd (closeBrowser s) =
         mkServer None []
           (snd (respond unit (BrowserClose (browser sess)) (world s)))
           (invoked s ++ [Invoked (BrowserClose (browser sess))])
     | None => snd (closeBrowser s) = s
     end
  /\ closeBrowser (snd (closeBrowser s)) = (inr tt, snd (closeBrowser s))
  /\ (closeBrowser ;; closeBrowser) s = closeBrowser s
  /\ callTool CloseBrowser s =
       (inr [TextContent "Browser session closed"], snd (closeBrowser s)).
Proof.
  assert (T : closeBrowser (snd (closeBrowser s)) = (inr tt, snd (closeBrowser s))).
  { rewrite (closeBrowser_eq s).
    destruct (session s) as [sess |] eqn:Es; cbn [snd].
    - rewrite closeBrowser_eq. reflexivity.
    - rewrite closeBrowser_eq, Es. reflexivity. }
  assert (R : fst (closeBrowser s) = inr tt).
  { rewrite closeBrowser_eq. destruct (session s); reflexivity. }
  split; [exact R |].
  split; [rewrite closeBrowser_eq; destruct (session s) eqn:Es; [reflexivity | exact Es] |].
  split; [rewrite closeBrowser_eq; destruct (session s); reflexivity |].
  split; [exact T |].
  split.
  - unfold bind. destruct (closeBrowser s) as [[e | []] s1] eqn:Ec;
      cbn [fst snd] in *; [discriminate | exact T].
  - unfold callTool, toolBody, try_catch, bind, ret.
    destruct (closeBrowser s) as [[e | []] s1]; cbn [fst snd] in *;
      [discriminate | reflexivity].
Qed.

(** ** The cleanup timer *)

(** C4, as the code has it.  A tick never throws.  With a session, the tick
    closes it if and only if the time since [lastActivity] is strictly more
    than 1800000 ms: then the browser's close is invoked, no session is left
    and the log buffer is empty; at 1800000 ms or less the tick changes
    nothing.  Without a session the tick changes nothing either. *)
Theorem cleanupTick_closes_iff (s : Server) (sess : BrowserSession) :
  session s = Some sess ->
  let idle := (dateNow (world s) - lastActivity sess)%Z in
  fst (cleanupTick s) = inr tt
  /\ ((1800000 < idle)%Z <-> session (snd (cleanupTick s)) = None)
  /\ ((idle <= 1800000)%Z <-> snd (cleanupTick s) = s)
  /\ ((1800000 < idle)%Z ->
        snd (cleanupTick s) = snd (closeBrowser s)
        /\ consoleLogs (snd (cleanupTick s)) = []
        /\ invoked (snd (cleanupTick s)) =
             (invoked s ++ [Invoked (BrowserClose (browser sess))])%list)
  /\ (forall s0 : Server, session s0 = None -> cleanupTick s0 = (inr tt, s0)).
Proof.
  intros Es idle.
  assert (N : forall s0 : Server,
             session s0 = None -> cleanupTick s0 = (inr tt, s0)).
  { intros s0 E0. unfold cleanupTick. rewrite E0. reflexivity. }
  unfold cleanupTick. rewrite Es.
  change (dateNow (world s) - lastActivity sess)%Z with idle.
  change SESSION_TIMEOUT with 1800000%Z.
  destruct (Z.ltb_spec 1800000 idle) as [H | H].
  - rewrite closeBrowser_eq, Es. cbn [fst snd session consoleLogs invoked].
    repeat split; auto; try lia.
    intros K. rewrite <- K in Es. discriminate.
  - cbn [fst snd]. repeat split; auto; try lia.
    rewrite Es. discriminate.
Qed.

(** ** Reading resources *)

Lemma eqb_catalog (uri : string) :
  ~ In uri (map re_uri listResources) ->
  String.eqb uri CONSOLE_LOGS_URI = false
  /\ String.eqb uri CURRENT_PAGE_URI = false.
Proof.
  intros H. split; apply String.eqb_neq; intros ->; apply H; cbn; auto.
Qed.

(** C7, what the code does.  A uri outside the catalog makes the handler
    throw the invalid-request error inside its own [try]; the [catch] of the
    handler turns it into an internal error, and that is what the request
    fails with.  The state is unchanged. *)
Theorem readResource_unknown_is_internal (uri : string) (s : Server) :
  ~ In uri (map re_uri listResources) ->
  readResource uri s =
  (inl (McpError InternalError
          ("Failed to read resource " ++ uri ++ ": "
             ++ mcpErrorToString InvalidRequest ("Unknown resource: " ++ uri))),
   s).
Proof.
  intros H. destruct (eqb_catalog uri H) as [E1 E2].
  unfold readResource, try_catch, throw. rewrite E1, E2. reflexivity.
Qed.

(** ** Session replacement and the log buffer *)

(** C10. When the stored session's browser is no longer connected,
    [ensureBrowser] runs [createBrowserSession] and nothing else: the close
    path is not taken, the log buffer is the one of the previous session, and
    the console-logs resource read afterwards shows those entries.  When
    the creation succeeds the stored session is the newly launched one. *)
Theorem replacement_keeps_console_logs (s : Server) (sess : BrowserSession) :
  session s = Some sess ->
  connected (world s) (browser sess) = false ->
  let s1 := snd (ensureBrowser s) in
  ensureBrowser s = createBrowserSession s
  /\ consoleLogs s1 = consoleLogs s
  /\ fst (readResource CONSOLE_LOGS_URI s1) =
       inr [mkResourceContent CONSOLE_LOGS_URI "text/plain"
              (orElse (join nl (consoleLogs s)) "No console logs available")]
  /\ match fst (ensureBrowser s) with
     | inr _ =>
         exists b p,
           session s1 = Some (mkSession b p (dateNow (world s1)))
           /\ fst (respond _ (Launch false LAUNCH_ARGS) (world s)) = inr b
           /\ invoked s1 = (invoked s ++ creation_calls b p)%list
     | inl _ => session s1 = Some sess
     end.
Proof.
  intros Es Ec s1.
  assert (U : ensureBrowser s = createBrowserSession s).
  { rewrite ensureBrowser_unfold, Es, Ec. reflexivity. }
  assert (L : consoleLogs s1 = consoleLogs s) by apply ensureBrowser_keeps_logs.
  split; [exact U |]. split; [exact L |]. split.
  - unfold readResource, try_catch. cbn. rewrite L. reflexivity.
  - subst s1. rewrite U.
    destruct (create_cases s)
      as [(b & p & s2 & E & Hs & _ & Hl & Hi) | (e & s2 & k & E & Hs & _)];
      rewrite E; cbn [fst snd].
    + exists b, p. auto.
    + rewrite Hs. exact Es.
Qed.

(** ** Navigation *)

Lemma creation_not_goto (k : list (Invocation JsValue)) :
  forallb is_creation k = true -> existsb is_goto k = false.
Proof.
  induction k as [| i k IH]; [reflexivity |].
  cbn [forallb existsb]. intros H. apply andb_prop in H as [Hi Hk].
  rewrite (IH Hk), orb_false_r.
  destruct i as [A q]. destruct q; cbn in *; congruence.
Qed.

Lemma invoked_since_app (s s' : Server) (k : list (Invocation JsValue)) :
  invoked s' = (invoked s ++ k)%list -> invoked_since s s' = k.
Proof.
  intros H. unfold invoked_since. rewrite H, skipn_app, skipn_all, Nat.sub_diag.
  reflexivity.
Qed.

Lemma ensureBrowser_invoked (s : Server) :
  exists k,
    invoked (snd (ensureBrowser s)) = (invoked s ++ k)%list
    /\ forallb is_creation k = true.
Proof.
  assert (C : exists k,
    invoked (snd (createBrowserSession s)) = (invoked s ++ k)%list
    /\ forallb is_creation k = true).
  { destruct (create_cases s)
      as [(b & p & s1 & E & _ & _ & _ & Hi) | (e & s1 & k & E & _ & _ & Hi & Hk)];
      rewrite E; cbn [snd].
    - exists (creation_calls b p). split; [exact Hi | reflexivity].
    - exists (Invoked (Launch false LAUNCH_ARGS) :: k). split; [exact Hi |].
      cbn [forallb is_creation]. exact Hk. }
  rewrite ensureBrowser_unfold. destruct (session s) as [sess |]; [| exact C].
  destruct (connected (world s) (browser sess)); [| exact C].
  exists []. cbn [snd]. rewrite app_nil_r. split; reflexivity.
Qed.

Lemma ensureBrowser_error (s : Server) (e : Thrown) (s1 : Server) :
  ensureBrowser s = (inl e, s1) ->
  session s1 = session s
  /\ exists err,
       e = McpError InternalError ("Failed to create browser session: " ++ err).
Proof.
  assert (C : createBrowserSession s = (inl e, s1) ->
              session s1 = session s
              /\ exists err,
                e = McpError InternalError ("Failed to create browser session: " ++ err)).
  { intros H.
    destruct (create_cases s)
      as [(b & p & s2 & E & _) | (err & s2 & k & E & Hs & _)];
      rewrite E in H; [discriminate |].
    injection H as <- <-. split; [exact Hs | exists err; reflexivity]. }
  rewrite ensureBrowser_unfold. destruct (session s) as [sess |]; [| exact C].
  destruct (connected (world s) (browser sess)); [discriminate | exact C].
Qed.

Lemma navigate_invalid (url : string) (s : Server) :
  validUrl url = false ->
  callTool (Navigate url) s =
  match ensureBrowser s with
  | (inr _, s1) =>
      (inl (McpError InternalError
              ("Tool execution failed: " ++ toString (JsError URL_ERROR))), s1)
  | (inl e, s1) =>
      (inl (McpError InternalError ("Tool execution failed: " ++ toString e)), s1)
  end.
Proof.
  unfold validUrl. intros H. apply orb_false_elim in H as [H1 H2].
  unfold callTool, toolBody, try_catch, bind, throw. rewrite H1, H2.
  destruct (ensureBrowser s) as [[e | []] s1]; reflexivity.
Qed.

(** C1, as the code has it.  A navigate call whose url starts with neither
    scheme always fails and never invokes the engine's [goto]; nothing is
    done after [ensureBrowser].  When [ensureBrowser] succeeds the failure
    is the url error, carried by the internal-error wrapper of the handler;
    when it does not, the call fails with the session-creation error
    instead. *)
Theorem navigate_rejects_url (url : string) (s : Server) :
  validUrl url = false ->
  snd (callTool (Navigate url) s) = snd (ensureBrowser s)
  /\ existsb is_goto (invoked_since s (snd (callTool (Navigate url) s))) = false
  /\ match fst (ensureBrowser s) with
     | inr _ =>
         fst (callTool (Navigate url) s) =
         inl (McpError InternalError
                "Tool execution failed: Error: URL must start with http:// or https://")
     | inl e =>
         fst (callTool (Navigate url) s) =
         inl (McpError InternalError ("Tool execution failed: " ++ toString e))
         /\ exists err,
              e = McpError InternalError
                    ("Failed to create browser session: " ++ err)
     end.
Proof.
  intros H. rewrite (navigate_invalid url s H).
  destruct (ensureBrowser_invoked s) as (k & Hi & Hk).
  pose proof (ensureBrowser_error s) as He.
  destruct (ensureBrowser s) as [[e | []] s1]; cbn [fst snd] in *.
  - split; [reflexivity |]. split.
    + rewrite (invoked_since_app _ _ _ Hi). apply creation_not_goto, Hk.
    + split; [reflexivity |]. apply (He e s1 eq_refl).
  - split; [reflexivity |]. split; [| reflexivity].
    rewrite (invoked_since_app _ _ _ Hi). apply creation_not_goto, Hk.
Qed.

(** C9, as the code has it.  For a navigate call made without a session
    and with a url that starts with neither scheme, session creation runs
    before the url is looked at.  When the creation succeeds the call fails
    with the url error and leaves the new session behind, launched by this
    call; when the creation fails the call fails with the creation error and
    there is still no session. *)
Theorem navigate_bad_url_leaves_session (url : string) (s : Server) :
  session s = None ->
  validUrl url = false ->
  match createBrowserSession s with
  | (inr _, s1) =>
      callTool (Navigate url) s =
      (inl (McpError InternalError
              "Tool execution failed: Error: URL must start with http:// or https://"),
       s1)
      /\ exists b p,
           session s1 = Some (mkSession b p (dateNow (world s1)))
           /\ fst (respond _ (Launch false LAUNCH_ARGS) (world s)) = inr b
           /\ invoked s1 = (invoked s ++ creation_calls b p)%list
  | (inl e, s1) =>
      callTool (Navigate url) s =
      (inl (McpError InternalError ("Tool execution failed: " ++ toString e)), s1)
      /\ session s1 = None
  end.
Proof.
  intros Es H. rewrite (navigate_invalid url s H), ensureBrowser_unfold, Es.
  destruct (create_cases s)
    as [(b & p & s1 & E & Hs & _ & Hl & Hi) | (e & s1 & k & E & Hs & _)];
    rewrite E.
  - split; [reflexivity |]. exists b, p. auto.
  - split; [reflexivity |]. rewrite Hs. exact Es.
Qed.

(** ** Tools on a server without a session *)


(** ** Page text *)

Lemma substring_0_length (n : nat) (t : string) :
  n <= String.length t -> String.length (substring 0 n t) = n.
Proof.
  revert n. induction t as [| c t IH]; intros n H.
  - cbn in H. destruct n; [reflexivity | lia].
  - destruct n as [| n]; [reflexivity |].
    cbn [substring String.length]. cbn [String.length] in H.
    rewrite IH by lia. reflexivity.
Qed.

Lemma substring_0_all (n : nat) (t : string) :
  String.length t <= n -> substring 0 n t = t.
Proof.
  revert n. induction t as [| c t IH]; intros n H.
  - destruct n; reflexivity.
  - destruct n as [| n]; cbn [String.length] in H; [lia |].
    cbn [substring]. rewrite IH by lia. reflexivity.
Qed.

Lemma substring_0_prefix (n : nat) (t : string) :
  String.prefix (substring 0 n t) t = true.
Proof.
  revert n. induction t as [| c t IH]; intros n.
  - destruct n; reflexivity.
  - destruct n as [| n]; [reflexivity |].
    cbn [substring String.prefix].
    destruct (ascii_dec c c) as [_ | K]; [apply IH | contradiction].
Qed.

Lemma append_length (a b : string) :
  String.length (a ++ b) = String.length a + String.length b.
Proof.
  induction a as [| c a IH]; [reflexivity |].
  cbn [append String.length]. rewrite IH. reflexivity.
Qed.

(** The bytes of a string followed by one that does not begin with the
    second half of a surrogate pair. *)
Lemma utf8_app (n : nat) (us tail : JsString) :
  length us <= n ->
  match tail with
  | [] => True
  | l :: _ => isLowSurrogate l = false
  end ->
  utf8 (us ++ tail)%list = utf8 us ++ utf8 tail.
Proof.
  revert us. induction n as [| n IH]; intros us Hn Ht.
  - destruct us; [reflexivity | cbn in Hn; lia].
  - destruct us as [| u rest]; [reflexivity |].
    cbn [length] in Hn. cbn [app utf8].
    destruct (u <? 128)%N.
    { rewrite IH by (assumption || lia). reflexivity. }
    destruct (u <? 2048)%N.
    { rewrite IH by (assumption || lia). reflexivity. }
    destruct rest as [| l rest'].
    + cbn [app]. destruct tail as [| l t]; [reflexivity |].
      rewrite Ht, andb_false_r. reflexivity.
    + cbn [app]. cbn [length] in Hn.
      destruct (isHighSurrogate u && isLowSurrogate l).
      * cbv zeta. rewrite IH by (assumption || lia). reflexivity.
      * change (l :: rest' ++ tail)%list with ((l :: rest') ++ tail)%list.
        rewrite IH by (assumption || (cbn [length]; lia)). reflexivity.
Qed.

Lemma utf8_page_text (shown : JsString) :
  utf8 (unitsOf "Page text: " ++ shown)%list = "Page text: " ++ utf8 shown.
Proof.
  reflexivity.
Qed.

Lemma utf8_dots (us : JsString) :
  utf8 (us ++ unitsOf "...")%list = utf8 us ++ "...".
Proof.
  rewrite (utf8_app (length us)); [reflexivity | lia | reflexivity].
Qed.

(** C5. A get-text call without a selector, on a server where
    [ensureBrowser] succeeds and the engine returns the document text,
    returns one text item, "Page text: " followed by what is shown of the
    text.  Lengths are counted in UTF-16 code units, as [length] and
    [substring] do: when the text is longer than 1000 units, what is shown
    is its first 1000 units, no more and no fewer, followed by "...";
    otherwise it is the whole text and nothing else.  The call stamps the
    session's activity. *)
Theorem getText_truncates
    (selector : option string) (s s1 : Server) (sess : BrowserSession)
    (text : JsString) (w' : World) :
  given selector = None ->
  ensureBrowser s = (inr tt, s1) ->
  session s1 = Some sess ->
  respond JsString (BodyTextContent (page sess)) (world s1) = (inr text, w') ->
  let shown :=
    if Nat.ltb 1000 (length text)
    then (firstn 1000 text ++ unitsOf "...")%list
    else text in
  callTool (GetText selector) s =
    (inr [TextContent (utf8 (unitsOf "Page text: " ++ shown)%list)],
     mkServer (Some (mkSession (browser sess) (page sess) (dateNow w')))
              (consoleLogs s1) w'
              (invoked s1 ++ [Invoked (BodyTextContent (page sess))]))
  /\ utf8 (unitsOf "Page text: " ++ shown)%list =
       "Page text: "
         ++ (if Nat.ltb 1000 (length text)
             then utf8 (firstn 1000 text) ++ "..."
             else utf8 text)
  /\ (1000 < length text ->
        length (firstn 1000 text) = 1000
        /\ (firstn 1000 text ++ skipn 1000 text)%list = text
        /\ length shown = 1003)
  /\ (length text <= 1000 -> shown = text).
Proof.
  intros Hg He Hs Hr shown.
  assert (B : pageText text = (unitsOf "Page text: " ++ shown)%list).
  { unfold pageText, shown. change TEXT_LIMIT with 1000.
    destruct (Nat.ltb_spec 1000 (length text)) as [H | H].
    - reflexivity.
    - rewrite firstn_all2 by exact H. rewrite app_nil_r. reflexivity. }
  split; [| split; [| split]].
  - unfold callTool, toolBody, try_catch, bind, ret. rewrite Hg, He.
    unfold sessionPage, updateActivity, setSession. rewrite Hs.
    rewrite perform_eq, Hr. cbn [fst snd session world consoleLogs invoked].
    rewrite Hs, B. reflexivity.
  - rewrite utf8_page_text. f_equal. subst shown.
    destruct (Nat.ltb 1000 (length text)); [apply utf8_dots | reflexivity].
  - intros H. subst shown.
    destruct (Nat.ltb_spec 1000 (length text)) as [_ | K]; [| lia].
    assert (L : length (firstn 1000 text) = 1000)
      by (rewrite length_firstn; lia).
    split; [exact L |]. split; [apply firstn_skipn |].
    rewrite length_app, L. reflexivity.
  - intros H. subst shown.
    destruct (Nat.ltb_spec 1000 (length text)) as [K | _]; [lia | reflexivity].
Qed.

(** ** Liveness of the stored session *)




(** * Further properties of the Puppeteer server *)

(** ** What a tool call leaves alone *)

(** Opens a browser tool's handler up to the point after [ensureBrowser]. *)
Ltac open_tool req sel url :=
  destruct req as [url | sel ? | sel | sel ? ? | sel ? | ? | sel | | ?];
  try discriminate;
  unfold callTool, toolBody, try_catch, bind, throw, ret.

Ltac run_action sel url :=
  unfold withDefault, sessionPage, updateActivity, setSession, perform;
  try destruct (given sel);
  try destruct (negb (startsWith url "http://") && negb (startsWith url "https://"));
  exec; try (unfold perform; exec).

Lemma readResource_invoked (uri : string) (s : Server) :
  exists k,
    invoked (snd (readResource uri s)) = (invoked s ++ k)%list
    /\ forallb is_page_query k = true
    /\ acts_on match session s with
               | Some sess => page sess
               | None => 0
               end k = true.
Proof.
  unfold readResource, try_catch, bind, ret, throw.
  destruct (String.eqb uri CONSOLE_LOGS_URI).
  { exists []. cbn [snd]. rewrite app_nil_r. repeat split. }
  destruct (String.eqb uri CURRENT_PAGE_URI).
  2: { exists []. cbn [snd]. rewrite app_nil_r. repeat split. }
  destruct (session s) as [sess |] eqn:Es.
  2: { exists []. cbn [snd]. rewrite app_nil_r. repeat split. }
  unfold perform. exec.
  all: eexists; cbn [invoked]; rewrite <- ?app_assoc; cbn [app].
  all: (split; [reflexivity |]).
  all: cbn [forallb is_page_query acts_on page_of]; rewrite ?Nat.eqb_refl.
  all: split; reflexivity.
Qed.

(** X2. Reading a resource changes neither the stored session nor the log
    buffer, invokes nothing but the url and title queries of the stored
    session's page, and reading the console logs invokes nothing at all and
    cannot fail. *)
Theorem resource_read_is_read_only (uri : string) (s : Server) :
  session (snd (readResource uri s)) = session s
  /\ consoleLogs (snd (readResource uri s)) = consoleLogs s
  /\ (exists k,
        invoked (snd (readResource uri s)) = (invoked s ++ k)%list
        /\ forallb is_page_query k = true
        /\ acts_on match session s with
                   | Some sess => page sess
                   | None => 0
                   end k = true)
  /\ readResource CONSOLE_LOGS_URI s =
       (inr [mkResourceContent CONSOLE_LOGS_URI "text/plain"
               (orElse (join nl (consoleLogs s)) "No console logs available")],
        s).
Proof.
  split; [apply readResource_frame |]. split; [apply readResource_frame |].
  split; [apply readResource_invoked | reflexivity].
Qed.

(** ** The activity stamp *)

(** What a browser tool call leaves of the session: stamped with the time
    at which the call ends when it returns; when it fails, as
    [ensureBrowser] left it, or stamped, which is how evaluate-js fails on a
    result without a JSON form. *)
Lemma stamp_cases (req : ToolRequest) (s : Server) :
  requires_browser req = true ->
  match callTool req s with
  | (inr _, s') =>
      exists sess1,
        session (snd (ensureBrowser s)) = Some sess1
        /\ session s' =
             Some (mkSession (browser sess1) (page sess1) (dateNow (world s')))
  | (inl _, s') =>
      session s' = session (snd (ensureBrowser s))
      \/ exists sess1,
           session (snd (ensureBrowser s)) = Some sess1
           /\ session s' =
                Some (mkSession (browser sess1) (page sess1)
                        (dateNow (world s')))
  end.
Proof.
  intros Hr. pose proof (ensureBrowser_ok s) as Hok.
  open_tool req sel url.
  all: destruct (ensureBrowser s) as [[e | []] s1]; cbn [fst snd] in *;
    [ left; reflexivity | ].
  all: destruct (Hok s1 eq_refl) as (sess1 & Hs & _); clear Hok.
  all: run_action sel url.
  all: try (left; reflexivity).
  all: try (eexists; split; reflexivity).
  all: try (right; eexists; split; reflexivity).
  all: try discriminate.
Qed.

(** ** A session that is still connected *)

(** X4. When the stored session's browser is connected, a browser tool call
    creates nothing and closes nothing: among the primitives the call
    invokes there is no launch, no [newPage], no setting up of a page and no
    close of a browser. *)
Theorem connected_session_is_reused
    (req : ToolRequest) (s : Server) (sess : BrowserSession) :
  session s = Some sess ->
  connected (world s) (browser sess) = true ->
  requires_browser req = true ->
  exists k,
    invoked (snd (callTool req s)) = (invoked s ++ k)%list
    /\ existsb is_creation k = false
    /\ existsb is_close k = false.
Proof.
  intros Es Ec Hr.
  assert (U : ensureBrowser s = (inr tt, s)).
  { rewrite ensureBrowser_unfold, Es, Ec. reflexivity. }
  destruct sess as [b p t0]. cbn [browser page] in *.
  open_tool req sel url.
  all: rewrite U.
  all: run_action sel url.
  all: try discriminate.
  all: eexists; cbn [invoked session snd page browser].
  all: rewrite <- ?app_assoc; cbn [app].
  all: (split; [first [reflexivity | symmetry; apply app_nil_r] |]).
  all: split; reflexivity.
Qed.

(** ** Selectors *)

(** X5. With a selector that matches nothing, screenshot and get-text fail
    with the element-not-found error after the one query for the element: no
    screenshot is taken and no text is read, and the session is not
    stamped. *)
Theorem missing_element_stops_the_tool
    (selector : option string) (fullPage : option bool) (sel : string)
    (s s1 : Server) (sess : BrowserSession) (w' : World) :
  given selector = Some sel ->
  ensureBrowser s = (inr tt, s1) ->
  session s1 = Some sess ->
  respond _ (Query (page sess) sel) (world s1) = (inr None, w') ->
  let failure :=
    (inl (McpError InternalError
            ("Tool execution failed: Error: Element not found: " ++ sel)),
     mkServer (Some sess) (consoleLogs s1) w'
       (invoked s1 ++ [Invoked (Query (page sess) sel)])) in
  callTool (Screenshot selector fullPage) s = failure
  /\ callTool (GetText selector) s = failure.
Proof.
  intros Hg He Hs Hq failure. subst failure.
  split.
  all: unfold callTool, toolBody, try_catch, bind, throw, ret.
  all: rewrite Hg, He; unfold sessionPage; rewrite Hs.
  all: rewrite perform_eq, Hq; cbn [fst snd session consoleLogs world invoked].
  all: rewrite Hs; reflexivity.
Qed.

(** X6. With a selector that matches, get-text returns the element's text
    whole: unlike the page text it is not cut at 1000 characters.  The
    element is looked up before its text is read, and the call stamps the
    session. *)
Theorem element_text_is_not_truncated
    (selector : option string) (sel : string) (s s1 : Server)
    (sess : BrowserSession) (el : Element) (text : string) (w1 w2 : World) :
  given selector = Some sel ->
  ensureBrowser s = (inr tt, s1) ->
  session s1 = Some sess ->
  respond _ (Query (page sess) sel) (world s1) = (inr (Some el), w1) ->
  respond _ (EvalTextContent (page sess) sel) w1 = (inr text, w2) ->
  callTool (GetText selector) s =
    (inr [TextContent ("Text from " ++ sel ++ ": " ++ text)],
     mkServer (Some (mkSession (browser sess) (page sess) (dateNow w2)))
       (consoleLogs s1) w2
       (invoked s1 ++ [Invoked (Query (page sess) sel);
                       Invoked (EvalTextContent (page sess) sel)]))
  /\ String.length ("Text from " ++ sel ++ ": " ++ text) =
       12 + String.length sel + String.length text.
Proof.
  intros Hg He Hs Hq Ht. split.
  - unfold callTool, toolBody, try_catch, bind, throw, ret.
    rewrite Hg, He. unfold sessionPage, updateActivity, setSession, perform.
    rewrite Hs, Hq. cbn [fst snd session consoleLogs world invoked].
    rewrite Hs. cbn [fst snd session consoleLogs world invoked page].
    rewrite Ht. cbn [fst snd session consoleLogs world invoked].
    rewrite ?Hs, <- app_assoc. reflexivity.
  - rewrite !append_length. cbn [String.length]. lia.
Qed.

(** X7. An empty-string selector counts as no selector: screenshot with it
    captures the page and get-text with it returns the page text, exactly as
    the calls without a selector do. *)
Theorem empty_selector_is_no_selector (fullPage : option bool) (s : Server) :
  callTool (Screenshot (Some "") fullPage) s = callTool (Screenshot None fullPage) s
  /\ callTool (GetText (Some "")) s = callTool (GetText None) s
  /\ forall sel : option string,
       given sel = None <-> (sel = None \/ sel = Some "").
Proof.
  split; [reflexivity |]. split; [reflexivity |].
  intros [v |]; unfold given, truthy.
  - destruct (String.eqb_spec v "") as [-> | N]; cbn [negb].
    + split; auto.
    + split; [discriminate |]. intros [K | K]; [discriminate | congruence].
  - split; auto.
Qed.

(** ** The url check *)

(** X8. The url check accepts exactly the strings that begin with
    "http://" or with "https://", whatever follows, nothing included. *)
Theorem validUrl_iff (url : string) :
  validUrl url = true <->
  exists rest, url = "http://" ++ rest \/ url = "https://" ++ rest.
Proof.
  unfold validUrl, startsWith. rewrite orb_true_iff.
  assert (K : forall p : string,
             String.prefix p url = true <-> exists rest, url = p ++ rest).
  { intros p. revert url. induction p as [| c p IH]; intros url.
    - split; [intros _; exists url; reflexivity |].
      intros _. destruct url; reflexivity.
    - destruct url as [| d url]; cbn [String.prefix append].
      + split; [discriminate | intros [rest H]; discriminate H].
      + destruct (ascii_dec c d) as [-> | N].
        * rewrite IH. split; intros [rest H]; exists rest; congruence.
        * split; [discriminate | intros [rest H]; congruence]. }
  rewrite !K. split.
  - intros [[rest H] | [rest H]]; exists rest; auto.
  - intros [rest [H | H]]; [left | right]; exists rest; exact H.
Qed.

(** X9. A navigate call reaches the engine's [goto] exactly when the url
    passes the check and [ensureBrowser] succeeds, and then once, with the
    url as given and the network-idle wait. *)
Theorem navigate_goto_iff (url : string) (s : Server) :
  let k := invoked_since (snd (ensureBrowser s)) (snd (callTool (Navigate url) s)) in
  invoked (snd (callTool (Navigate url) s)) =
    (invoked (snd (ensureBrowser s)) ++ k)%list
  /\ (existsb is_goto k = true <->
      validUrl url = true /\ fst (ensureBrowser s) = inr tt)
  /\ (existsb is_goto k = true ->
      exists p, k = [Invoked (Goto p url "networkidle2")]).
Proof.
  cbv zeta. pose proof (ensureBrowser_ok s) as Hok.
  assert (G : forall s1 s' k,
             invoked s' = (invoked s1 ++ k)%list -> invoked_since s1 s' = k)
    by (intros; apply invoked_since_app; assumption).
  unfold callTool, toolBody, try_catch, bind, throw, ret, validUrl.
  destruct (ensureBrowser s) as [[e | []] s1]; cbn [fst snd] in *.
  - assert (Z : invoked_since s1 s1 = []).
    { apply G. symmetry. apply app_nil_r. }
    rewrite Z, app_nil_r. split; [reflexivity |]. cbn [existsb].
    split; [split; [discriminate | intros [_ K]; discriminate K] | discriminate].
  - destruct (Hok s1 eq_refl) as (sess1 & Hs & _); clear Hok.
    destruct (startsWith url "http://"), (startsWith url "https://");
      cbn [negb andb orb].
    all: unfold sessionPage, updateActivity, setSession, perform; exec.
    all: erewrite G
      by (cbn [invoked]; first [reflexivity | symmetry; apply app_nil_r]).
    all: cbn [invoked]; (split; [rewrite ?app_nil_r; reflexivity |]).
    all: cbn [existsb is_goto].
    all: split;
      [ split; [auto | intros [K _]; first [exact K | reflexivity]]
      | first [discriminate | intros _; eexists; reflexivity] ].
Qed.

(** ** Failures *)

(** X10. A tool name outside the eight cases fails without touching
    anything: no session is created, the engine is not called, the state is
    the one before, and the method-not-found error the handler throws
    reaches the caller as an internal error. *)
Theorem unknown_tool_touches_nothing (name : string) (s : Server) :
  callTool (OtherTool name) s =
  (inl (McpError InternalError
          ("Tool execution failed: "
             ++ mcpErrorToString MethodNotFound ("Unknown tool: " ++ name))),
   s)
  /\ forall args : Arguments,
       ~ In name (map te_name listTools) ->
       decode name args = Some (OtherTool name).
Proof.
  split; [reflexivity |].
  intros args H. unfold decode.
  repeat match goal with
         | |- context [String.eqb name ?lit] =>
             destruct (String.eqb_spec name lit) as [-> | _];
             [exfalso; apply H; cbn; tauto |]
         end.
  reflexivity.
Qed.

(** X11. Whatever goes wrong, the two handlers fail in one way only: with
    an [McpError] of code [InternalError] whose message is the handler's
    prefix followed by the text of what was thrown. *)
Theorem failures_are_internal_errors :
  (forall (req : ToolRequest) (s s' : Server) (e : Thrown),
      callTool req s = (inl e, s') ->
      exists cause,
        toolBody req s = (inl cause, s')
        /\ e = McpError InternalError
                 ("Tool execution failed: " ++ toString cause))
  /\ (forall (uri : string) (s s' : Server) (e : Thrown),
        readResource uri s = (inl e, s') ->
        exists text,
          e = McpError InternalError
                ("Failed to read resource " ++ uri ++ ": " ++ text)).
Proof.
  split.
  - intros req s s' e. unfold callTool, try_catch, throw.
    destruct (toolBody req s) as [[cause | r] s1]; intros H;
      [| discriminate].
    injection H as <- <-. exists cause. auto.
  - intros uri s s' e. unfold readResource, try_catch, throw.
    match goal with
    | |- (let (_, _) := ?m s in _) = _ -> _ =>
        destruct (m s) as [[cause | r] s1]
    end; intros H; [| discriminate].
    injection H as <- <-. eexists. reflexivity.
Qed.

(** ** Idle eviction after a tool call *)

(** X12. A successful browser tool call keeps the session for the next 30
    minutes: whatever else changes in the world, a tick that fires while at
    most 1800000 ms have passed since the call ended does nothing, and one
    that fires later closes the session. *)
Theorem session_survives_ticks_after_success
    (req : ToolRequest) (s s' : Server) (r : ToolResult) (w : World) :
  requires_browser req = true ->
  callTool req s = (inr r, s') ->
  let later := step s' (EvWorld w) in
  ((dateNow w - dateNow (world s') <= 1800000)%Z ->
     cleanupTick later = (inr tt, later))
  /\ ((1800000 < dateNow w - dateNow (world s'))%Z ->
        session (snd (cleanupTick later)) = None
        /\ consoleLogs (snd (cleanupTick later)) = []).
Proof.
  intros Hr Hc later.
  pose proof (stamp_cases req s Hr) as H.
  rewrite Hc in H. destruct H as (sess1 & _ & Hs).
  subst later. unfold cleanupTick. cbn [step session world].
  rewrite Hs. cbn [lastActivity]. change SESSION_TIMEOUT with 1800000%Z.
  destruct (Z.ltb_spec 1800000 (dateNow w - dateNow (world s'))) as [K | K].
  - split; [lia |]. intros _. rewrite closeBrowser_eq.
    cbn [session]. split; reflexivity.
  - split; [reflexivity | lia].
Qed.

(** ** Reachable states *)

Lemma configured_extend (s s' : Server) (k : list (Invocation JsValue)) :
  configured s ->
  invoked s' = (invoked s ++ k)%list ->
  (session s' = None
   \/ exists sess t, session s = Some sess
        /\ session s' = Some (mkSession (browser sess) (page sess) t)) ->
  configured s'.
Proof.
  unfold configured. intros C Hi [Hn | (sess & t & Hs & Hs')].
  - rewrite Hn. exact I.
  - rewrite Hs in C. rewrite Hs', Hi. cbn [browser page].
    apply incl_appl. exact C.
Qed.

Lemma ensureBrowser_configured (s : Server) :
  configured s -> configured (snd (ensureBrowser s)).
Proof.
  intros C. rewrite ensureBrowser_unfold.
  assert (K : configured (snd (createBrowserSession s))).
  { destruct (create_cases s)
      as [(b & p & s1 & E & Hs & _ & _ & Hi) | (e & s1 & k & E & Hs & _ & Hi & _)];
      rewrite E; cbn [snd].
    - unfold configured. rewrite Hs, Hi. cbn [browser page].
      apply incl_appr, incl_refl.
    - unfold configured in *. rewrite Hs, Hi.
      destruct (session s) as [sess |]; [| exact I].
      apply incl_appl. exact C. }
  destruct (session s) as [sess |]; [| exact K].
  destruct (connected (world s) (browser sess)); [exact C | exact K].
Qed.

Lemma callTool_configured (req : ToolRequest) (s : Server) :
  configured s -> configured (snd (callTool req s)).
Proof.
  intros C.
  destruct (requires_browser req) eqn:Hr.
  - pose proof (ensureBrowser_configured s C) as C1.
    pose proof (ensureBrowser_ok s) as Hok.
    open_tool req sel url.
    all: destruct (ensureBrowser s) as [[e | []] s1]; cbn [fst snd] in *;
      [ exact C1 | ].
    all: destruct (Hok s1 eq_refl) as (sess1 & Hs & _); clear Hok.
    all: destruct sess1 as [b p t0].
    all: run_action sel url.
    all: try exact C1.
    all: try discriminate.
    all: eapply (configured_extend s1); [exact C1 | |].
    all: cbn [invoked session]; rewrite <- ?app_assoc; try reflexivity.
    all: right; do 2 eexists; split; [exact Hs | reflexivity].
  - destruct req; try discriminate Hr.
    + unfold callTool, toolBody, try_catch, bind, ret, throw.
      rewrite closeBrowser_eq. unfold configured in *.
      destruct (session s) as [sess |] eqn:Es; cbn [snd session];
        [exact I | rewrite Es; exact I].
    + exact C.
Qed.

Lemma step_configured (s : Server) (ev : Event) :
  configured s -> configured (step s ev).
Proof.
  intros C. destruct ev as [req | uri | msg | | | w]; cbn [step].
  - apply callTool_configured, C.
  - destruct (readResource_invoked uri s) as (k & Hi & _).
    destruct (readResource_frame uri s) as [Hs _].
    apply (configured_extend s _ k C Hi).
    destruct (session s) as [[b p t] |]; [right | left; exact Hs].
    exists (mkSession b p t), t. split; [reflexivity | exact Hs].
  - exact C.
  - unfold cleanupTick. unfold configured in *.
    destruct (session s) as [sess |] eqn:Es; [| cbn; rewrite Es; exact I].
    destruct (SESSION_TIMEOUT <? dateNow (world s) - lastActivity sess)%Z.
    + rewrite closeBrowser_eq, Es. exact I.
    + cbn [snd]. rewrite Es. exact C.
  - rewrite closeBrowser_eq. unfold configured in *.
    destruct (session s) as [sess |] eqn:Es; [exact I |].
    cbn [snd]. rewrite Es. exact I.
  - exact C.
Qed.

(** X13. Every session the server ever stores has gone through its whole
    creation.  In each state reached from the constructor's, whatever the
    events, the stored session's browser was launched by the server, its page
    was opened in that browser, and the page got the user agent, the
    1280 x 720 viewport and the console subscription: no tool ever works on
    a page that is not set up. *)
Theorem stored_session_is_configured (w : World) (evs : list Event) :
  match session (run (initial w) evs) with
  | Some sess =>
      let done := invoked (run (initial w) evs) in
      In (Invoked (Launch false LAUNCH_ARGS)) done
      /\ In (Invoked (NewPage (browser sess))) done
      /\ In (Invoked (SetUserAgent (page sess) USER_AGENT)) done
      /\ In (Invoked (SetViewport (page sess) 1280 720)) done
      /\ In (Invoked (OnConsole (page sess))) done
  | None => True
  end.
Proof.
  assert (C : forall evs s, configured s -> configured (run s evs)).
  { clear evs. intros evs. induction evs as [| ev evs IH]; intros s Cs;
      [exact Cs |].
    unfold run in *. cbn [fold_left]. apply IH, step_configured, Cs. }
  specialize (C evs (initial w) I). unfold configured in C.
  destruct (session (run (initial w) evs)) as [sess |]; [| exact I].
  cbv zeta. unfold creation_calls in C.
  repeat split; apply C; cbn [In]; tauto.
Qed.

Lemma in_skipn {A : Type} (n : nat) (l : list A) (x : A) :
  In x (skipn n l) -> In x l.
Proof.
  intros H. rewrite <- (firstn_skipn n l). apply in_or_app. right. exact H.
Qed.

Lemma step_entries (s : Server) (ev : Event) :
  Forall (fun e => exists m, e = logEntry m) (consoleLogs s) ->
  Forall (fun e => exists m, e = logEntry m) (consoleLogs (step s ev)).
Proof.
  intros H.
  assert (K : forall l : list string,
             l = consoleLogs s \/ l = [] ->
             Forall (fun e => exists m, e = logEntry m) l).
  { intros l [-> | ->]; [exact H | constructor]. }
  destruct ev as [req | uri | msg | | | w]; cbn [step].
  - apply K, callTool_logs.
  - apply K. left. apply readResource_frame.
  - cbn [onConsole consoleLogs]. rewrite pushLog_slice. unfold slice_last.
    apply Forall_forall. intros e He. apply in_skipn in He.
    apply in_app_or in He as [He | [<- | []]].
    + revert e He. apply Forall_forall. exact H.
    + eauto.
  - apply K, cleanupTick_logs.
  - apply K, closeBrowser_logs.
  - exact H.
Qed.

(** X14. In every state reached from the constructor's, the console-logs
    resource shows the placeholder exactly when the buffer is empty;
    otherwise its text begins with the bracket of the oldest entry kept. *)
Theorem console_logs_placeholder_iff_empty (w : World) (evs : list Event) :
  let s := run (initial w) evs in
  let text := orElse (join nl (consoleLogs s)) "No console logs available" in
  fst (readResource CONSOLE_LOGS_URI s) =
    inr [mkResourceContent CONSOLE_LOGS_URI "text/plain" text]
  /\ (text = "No console logs available" <-> consoleLogs s = [])
  /\ (consoleLogs s <> [] -> String.prefix "[" text = true).
Proof.
  cbv zeta. split; [reflexivity |].
  assert (E : forall evs s,
             Forall (fun e => exists m, e = logEntry m) (consoleLogs s) ->
             Forall (fun e => exists m, e = logEntry m) (consoleLogs (run s evs))).
  { clear evs. intros evs. induction evs as [| ev evs IH]; intros s Hs;
      [exact Hs |].
    unfold run in *. cbn [fold_left]. apply IH, step_entries, Hs. }
  specialize (E evs (initial w) (Forall_nil _)).
  destruct (consoleLogs (run (initial w) evs)) as [| e rest].
  - cbn. split; [tauto | congruence].
  - inversion E as [| ? ? [m ->] _]; subst.
    assert (J : exists tail, join nl (logEntry m :: rest) = String "["%char tail).
    { unfold logEntry. destruct rest as [| e2 rest]; cbn [join append];
        eexists; reflexivity. }
    destruct J as [tail ->]. unfold orElse. cbn [String.eqb].
    split; [split; discriminate |]. intros _. cbn. 
    destruct (ascii_dec "[" "["); [destruct tail; reflexivity | contradiction].
Qed.

(** ** Browsers that are never closed *)

(** X15. [ensureBrowser] never closes a browser.  When it replaces a
    session whose browser is disconnected, the old browser is dropped without
    a close; and when the engine launches a browser but then fails to open
    its page, the call fails and that browser is neither stored nor closed:
    the only calls made are the launch and the failed [newPage]. *)
Theorem ensureBrowser_never_closes
    (s : Server) (b : Browser) (err : string) (w1 w2 : World) :
  session s = None ->
  respond _ (Launch false LAUNCH_ARGS) (world s) = (inr b, w1) ->
  respond _ (NewPage b) w1 = (inl err, w2) ->
  ensureBrowser s =
    (inl (McpError InternalError ("Failed to create browser session: " ++ err)),
     mkServer None (consoleLogs s) w2
       (invoked s ++ [Invoked (Launch false LAUNCH_ARGS); Invoked (NewPage b)]))
  /\ forall s0 : Server,
       exists k,
         invoked (snd (ensureBrowser s0)) = (invoked s0 ++ k)%list
         /\ existsb is_close k = false.
Proof.
  intros Es Hl Hn. split.
  - rewrite ensureBrowser_unfold, Es.
    unfold createBrowserSession, try_catch, bind, throw, perform.
    rewrite Hl. cbn [fst snd session consoleLogs world invoked].
    rewrite Hn. cbn [fst snd session consoleLogs world invoked toString].
    rewrite Es, <- app_assoc. reflexivity.
  - intros s0. destruct (ensureBrowser_invoked s0) as (k & Hi & Hk).
    exists k. split; [exact Hi |].
    clear Hi. induction k as [| i k IH]; [reflexivity |].
    cbn [forallb existsb] in *. apply andb_prop in Hk as [H1 H2].
    rewrite (IH H2), orb_false_r.
    destruct i as [A q]. destruct q; cbn in *; congruence.
Qed.

(** ** The resource catalog *)

(** X16. What the catalog advertises is what a read returns.  For each of
    the two entries of the ListResources answer, a successful read returns
    one item carrying the entry's uri and the entry's mime type; a read of a
    catalog entry never ends in the unknown-resource error, and it can fail
    only for the current page of a stored session, when the engine does. *)
Theorem catalog_entries_are_readable (e : ResourceEntry) (s : Server) :
  In e listResources ->
  match readResource (re_uri e) s with
  | (inr r, _) =>
      exists text, r = [mkResourceContent (re_uri e) (re_mimeType e) text]
  | (inl err, _) =>
      re_uri e = CURRENT_PAGE_URI
      /\ session s <> None
      /\ exists cause,
           err = McpError InternalError
                   ("Failed to read resource " ++ re_uri e ++ ": " ++ cause)
           /\ (fst (respond _ (PageUrl match session s with
                                       | Some sess => page sess
                                       | None => 0
                                       end) (world s)) = inl cause
               \/ exists url w1,
                    respond _ (PageUrl match session s with
                                       | Some sess => page sess
                                       | None => 0
                                       end) (world s) = (inr url, w1)
                    /\ fst (respond _ (PageTitle match session s with
                                                 | Some sess => page sess
                                                 | None => 0
                                                 end) w1) = inl cause)
  end.
Proof.
  intros [<- | [<- | []]]; cbn [re_uri re_mimeType].
  - eexists. reflexivity.
  - unfold readResource, try_catch, bind, ret, throw.
    replace (String.eqb CURRENT_PAGE_URI CONSOLE_LOGS_URI) with false
      by reflexivity.
    rewrite String.eqb_refl.
    destruct (session s) as [sess |] eqn:Es; [| eexists; reflexivity].
    unfold perform.
    destruct (respond string (PageUrl (page sess)) (world s))
      as [[c | url] w1] eqn:Eu; cbn [fst snd session consoleLogs world invoked toString].
    + split; [reflexivity |]. split; [discriminate |].
      exists c. split; [reflexivity | left; reflexivity].
    + destruct (respond string (PageTitle (page sess)) w1)
        as [[c | title] w2] eqn:Et;
        cbn [fst snd session consoleLogs world invoked toString].
      * split; [reflexivity |]. split; [discriminate |].
        exists c. split; [reflexivity |]. right. exists url, w1.
        rewrite Et. auto.
      * eexists. reflexivity.
Qed.


End Properties.

(** * Properties of the Convex server *)

Module ConvexFacts.

Import Convex.

Section Facts.

Context {B : Backend}.

Lemma request_eq (c : Call) (s : State) :
  request c s =
  (match fst (dbAnswer c (db s)) with
   | inl err => inl (Exception err)
   | inr v => inr v
   end,
   mkState (snd (dbAnswer c (db s))) (calls s ++ [c])).
Proof.
  unfold request. destruct (dbAnswer c (db s)) as [[err | v] d']; reflexivity.
Qed.

(** X18. The Convex tools are a pass-through.  Each of the five tools makes
    exactly one call to the client, whatever its outcome; the database is
    left as that call left it; when the call fails, its text reaches the
    caller unchanged behind the handler's prefix; and list-user-notes, the
    one tool that only reads, goes through a query, never a mutation.  A
    name outside the five makes no call at all. *)
Theorem tool_makes_one_call (req : Request) (s : State) :
  match req with
  | UnknownTool name =>
      callTool req s =
      (inl (McpError InternalError
              ("Tool execution failed: "
                 ++ dbErrorToString MethodNotFound ("Unknown tool: " ++ name))),
       s)
  | _ =>
      exists c,
        calls (snd (callTool req s)) = (calls s ++ [c])%list
        /\ db (snd (callTool req s)) = snd (dbAnswer c (db s))
        /\ is_mutation c =
             match req with
             | ListUserNotes _ => false
             | _ => true
             end
        /\ match fst (dbAnswer c (db s)) with
           | inl err =>
               fst (callTool req s) =
               inl (McpError InternalError ("Tool execution failed: " ++ err))
           | inr _ => True
           end
  end.
Proof.
  destruct req; [.. | reflexivity].
  all: unfold callTool, toolBody, try_catch, bind, ret, throw.
  all: rewrite request_eq.
  all: match goal with
       | |- context [dbAnswer ?c ?d] =>
           destruct (dbAnswer c d) as [[err | v] d'] eqn:Ed
       end.
  all: cbn [fst snd calls db toString].
  all: try (destruct (lengthOf v); cbn [fst snd calls db]).
  all: try (destruct (stringify2 v); cbn [fst snd calls db]).
  all: eexists; (split; [reflexivity |]); rewrite Ed; cbn [fst snd].
  all: repeat split; reflexivity.
Qed.

(** X19. Reading a Convex resource never changes the database through a
    mutation: a read makes at most one call and that call is a query.  The
    notes resource makes no call at all: in every state it returns the same
    hint, and no notes, although the catalog describes it as all notes of the
    database. *)
Theorem reads_never_mutate (uri : string) (s : State) :
  (exists k,
      calls (snd (readResource uri s)) = (calls s ++ k)%list
      /\ existsb is_mutation k = false
      /\ length k <= 1)
  /\ readResource NOTES_URI s =
       (inr [mkResourceContent NOTES_URI "application/json" NOTES_HINT], s)
  /\ In (mkResourceEntry NOTES_URI "application/json" "Notes Database"
           "All notes from the Convex database") listResources.
Proof.
  split; [| split; [reflexivity | cbn; tauto]].
  unfold readResource, try_catch, bind, ret, throw.
  destruct (String.eqb uri TASKS_URI); [| destruct (String.eqb uri USERS_URI)].
  1, 2: rewrite request_eq;
    match goal with
    | |- context [dbAnswer ?c ?d] =>
        destruct (dbAnswer c d) as [[err | v] d']
    end;
    cbn [fst snd calls]; try destruct (stringify2 v); cbn [fst snd calls];
    eexists; (split; [reflexivity |]);
    (split; [reflexivity | cbn; lia]).
  destruct (String.eqb uri NOTES_URI); cbn [snd];
    exists []; rewrite app_nil_r; repeat split; cbn; lia.
Qed.

(** X20. The Convex catalog and the reader agree on uris and mime types,
    and a uri outside the catalog fails like an execution failure.  A
    successful read of a catalog entry returns one item with the entry's uri
    and mime type; a failed one has made its one query and fails either with
    the failure of that query or, the query answered, with the failure to
    put the answer in JSON; a read of any other uri makes no call and fails
    with an internal error that carries the invalid-request error only as
    text. *)
Theorem catalog_and_reader_agree (uri : string) (s : State) :
  (In uri (map re_uri listResources) ->
     match readResource uri s with
     | (inr r, _) =>
         exists e text,
           In e listResources
           /\ re_uri e = uri
           /\ r = [mkResourceContent uri (re_mimeType e) text]
     | (inl err, s') =>
         exists fn cause,
           calls s' = (calls s ++ [Query fn []])%list
           /\ err = McpError InternalError
                      ("Failed to read resource " ++ uri ++ ": " ++ cause)
           /\ (fst (dbAnswer (Query fn []) (db s)) = inl cause
               \/ exists v,
                    fst (dbAnswer (Query fn []) (db s)) = inr v
                    /\ stringify2 v = inl cause)
     end)
  /\ (~ In uri (map re_uri listResources) ->
        readResource uri s =
        (inl (McpError InternalError
                ("Failed to read resource " ++ uri ++ ": "
                   ++ dbErrorToString InvalidRequest
                        ("Unknown resource: " ++ uri))),
         s)).
Proof.
  split.
  - cbn [listResources map re_uri In].
    intros [<- | [<- | [<- | []]]].
    3: { do 2 eexists. split; [right; right; left; reflexivity |].
         split; reflexivity. }
    all: unfold readResource, try_catch, bind, ret, throw.
    all: cbn [String.eqb TASKS_URI USERS_URI NOTES_URI Ascii.eqb Bool.eqb].
    all: rewrite request_eq.
    all: match goal with
         | |- context [dbAnswer ?c ?d] =>
             destruct (dbAnswer c d) as [[err | v] d'] eqn:Ed
         end.
    all: cbn [fst snd calls toString].
    all: try (destruct (stringify2 v) as [err | json] eqn:Ej;
              cbn [fst snd calls toString]).
    all: try (do 2 eexists; split; [reflexivity |]; split; [reflexivity |];
              rewrite Ed; cbn [fst];
              first [left; reflexivity | right; eexists; split; [reflexivity | exact Ej]]).
    + do 2 eexists. split; [left; reflexivity |]. split; reflexivity.
    + do 2 eexists. split; [right; left; reflexivity |]. split; reflexivity.
  - intros H.
    assert (E1 : String.eqb uri TASKS_URI = false)
      by (apply String.eqb_neq; intros ->; apply H; cbn; tauto).
    assert (E2 : String.eqb uri USERS_URI = false)
      by (apply String.eqb_neq; intros ->; apply H; cbn; tauto).
    assert (E3 : String.eqb uri NOTES_URI = false)
      by (apply String.eqb_neq; intros ->; apply H; cbn; tauto).
    unfold readResource, try_catch, throw. rewrite E1, E2, E3. reflexivity.
Qed.

End Facts.

End ConvexFacts.

(** * Runs in the scripted world *)

#[local] Existing Instance sim.

(** ** The log buffer after 101 console events *)

Example hundred_and_one_messages :
  let s := run fresh_server (map EvConsole (numbered 0 101)) in
  length (consoleLogs s) = 100
  /\ hd "" (consoleLogs s) = logEntry (mkConsoleMessage "log" (filler 1))
  /\ last (consoleLogs s) "" = logEntry (mkConsoleMessage "log" (filler 100))
  /\ existsb (String.eqb (logEntry (mkConsoleMessage "log" (filler 0))))
       (consoleLogs s) = false
  /\ existsb (String.eqb (logEntry (mkConsoleMessage "log" (filler 100))))
       (consoleLogs s) = true.
Proof.
  vm_compute. repeat split.
Qed.

(** ** navigate with a url without scheme *)

Lemma navigate_rejects_url_witness :
  validUrl "ftp://example.com" = false
  /\ existsb is_goto
       (invoked_since fresh_server
          (snd (callTool (Navigate "ftp://example.com") fresh_server))) = false.
Proof.
  split; [reflexivity |].
  exact (proj1 (proj2 (navigate_rejects_url "ftp://example.com" fresh_server
                         eq_refl))).
Defined.

(** The claim of C1 fails where the engine cannot launch: the call fails
    with the session-creation error, not with the url error. *)
Lemma navigate_failure_is_not_always_the_url_error :
  validUrl "ftp://example.com" = false
  /\ fst (callTool (Navigate "ftp://example.com") stranded_server) =
       inl (McpError InternalError
              "Tool execution failed: McpError: MCP error -32603: Failed to create browser session: Error: Failed to launch the browser process!")
  /\ fst (callTool (Navigate "ftp://example.com") stranded_server) <>
       inl (McpError InternalError
              "Tool execution failed: Error: URL must start with http:// or https://").
Proof.
  split; [reflexivity |]. split; [reflexivity |].
  vm_compute. discriminate.
Qed.

Lemma navigate_bad_url_leaves_session_witness :
  session fresh_server = None
  /\ validUrl "example.com" = false
  /\ session (snd (callTool (Navigate "example.com") fresh_server)) =
       Some (mkSession 0 1 0)
  /\ fst (callTool (Navigate "example.com") fresh_server) =
       inl (McpError InternalError
              "Tool execution failed: Error: URL must start with http:// or https://").
Proof.
  split; [reflexivity |]. split; [reflexivity |].
  pose proof (navigate_bad_url_leaves_session "example.com" fresh_server
                eq_refl eq_refl) as H.
  vm_compute in H. destruct H as [H _].
  split; [exact (f_equal (fun r => session (snd r)) H)
         | exact (f_equal fst H)].
Defined.

(** The claim of C9 fails where the engine cannot launch: the call fails and
    no session is left behind. *)
Lemma navigate_bad_url_may_leave_no_session :
  session stranded_server = None
  /\ validUrl "example.com" = false
  /\ (exists e, fst (callTool (Navigate "example.com") stranded_server) = inl e)
  /\ session (snd (callTool (Navigate "example.com") stranded_server)) = None.
Proof.
  split; [reflexivity |]. split; [reflexivity |]. split; [| reflexivity].
  eexists. vm_compute. reflexivity.
Qed.

(** ** A session whose browser has gone *)


(** ** The cleanup timer at the threshold *)

Lemma cleanupTick_closes_iff_witness :
  session (idle_server 1800001) = Some (mkSession 0 1 0)
  /\ session (snd (cleanupTick (idle_server 1800001))) = None
  /\ consoleLogs (snd (cleanupTick (idle_server 1800001))) = [].
Proof.
  split; [reflexivity |].
  pose proof (cleanupTick_closes_iff (idle_server 1800001) (mkSession 0 1 0)
                eq_refl) as (_ & H2 & _ & H4 & _).
  split.
  - apply H2. reflexivity.
  - apply H4. reflexivity.
Defined.

(** The claim of C4 fails at the threshold itself: after exactly 30 minutes
    without activity the idle time is at least the threshold, and the tick
    leaves the session and the log buffer as they are. *)
Lemma cleanupTick_keeps_session_at_threshold :
  let s := idle_server 1800000 in
  (dateNow (world s) - 0 >= SESSION_TIMEOUT)%Z
  /\ session s = Some (mkSession 0 1 0)
  /\ cleanupTick s = (inr tt, s)
  /\ session (snd (cleanupTick s)) = Some (mkSession 0 1 0)
  /\ consoleLogs (snd (cleanupTick s)) = ["[log] hello"].
Proof.
  cbv zeta. split; [vm_compute; discriminate |]. repeat split.
Qed.

(** ** get-text on a long document *)

(** A document of 501 accented letters is 501 code units and 1002 bytes
    long: it is shown whole.  One of 1001 is cut after its 1000th letter. *)
Example accented_document :
  utf8 [233%N] = "é"
  /\ String.length (utf8 (repeat 233%N 501)) = 1002
  /\ utf8 (pageText (repeat 233%N 501)) =
       "Page text: " ++ utf8 (repeat 233%N 501)
  /\ utf8 (pageText (repeat 233%N 1001)) =
       "Page text: " ++ utf8 (repeat 233%N 1000) ++ "...".
Proof.
  vm_compute. repeat split.
Qed.

Lemma getText_truncates_witness :
  given None = None
  /\ length (unitsOf (sim_body (world long_document_server))) = 1001
  /\ fst (callTool (GetText None) long_document_server) =
       inr [TextContent ("Page text: " ++ filler 1000 ++ "...")].
Proof.
  split; [reflexivity |]. split; [vm_compute; reflexivity |].
  pose proof (getText_truncates None long_document_server
                (snd (ensureBrowser long_document_server))
                (mkSession 0 1 0) (unitsOf (filler 1001))
                (world (snd (ensureBrowser long_document_server)))
                eq_refl eq_refl eq_refl eq_refl) as [H _].
  vm_compute in H. vm_compute. exact (f_equal fst H).
Defined.

(** ** An unknown resource *)

Lemma readResource_unknown_is_internal_witness :
  ~ In "puppeteer://cookies" (map re_uri listResources)
  /\ readResource "puppeteer://cookies" fresh_server =
       (inl (McpError InternalError
               "Failed to read resource puppeteer://cookies: McpError: MCP error -32600: Unknown resource: puppeteer://cookies"),
        fresh_server).
Proof.
  assert (H : ~ In "puppeteer://cookies" (map re_uri listResources)).
  { cbn. intros [K | [K | []]]; discriminate K. }
  split; [exact H |].
  exact (readResource_unknown_is_internal "puppeteer://cookies" fresh_server H).
Defined.

(** ** A tool call after close-browser *)



(** ** Replacing a disconnected session *)

Lemma replacement_keeps_console_logs_witness :
  session stale_server = Some (mkSession 0 1 0)
  /\ connected (world stale_server) 0 = false
  /\ consoleLogs (snd (ensureBrowser stale_server)) = ["[log] hello"]
  /\ fst (readResource CONSOLE_LOGS_URI (snd (ensureBrowser stale_server))) =
       inr [mkResourceContent CONSOLE_LOGS_URI "text/plain" "[log] hello"].
Proof.
  split; [reflexivity |]. split; [reflexivity |].
  pose proof (replacement_keeps_console_logs stale_server (mkSession 0 1 0)
                eq_refl eq_refl) as (_ & H2 & H3 & _).
  split; [exact H2 | exact H3].
Defined.

(** ** Runs for the further properties *)

Lemma connected_session_is_reused_witness :
  session (idle_server 7000) = Some (mkSession 0 1 0)
  /\ connected (world (idle_server 7000)) 0 = true
  /\ requires_browser (Navigate "https://example.com") = true
  /\ exists k,
       invoked (snd (callTool (Navigate "https://example.com")
                       (idle_server 7000))) = k
       /\ existsb is_creation k = false.
Proof.
  split; [reflexivity |]. split; [reflexivity |]. split; [reflexivity |].
  destruct (connected_session_is_reused (Navigate "https://example.com")
              (idle_server 7000) (mkSession 0 1 0) eq_refl eq_refl eq_refl)
    as (k & H & Hc & _).
  exists (([] : list (Invocation string)) ++ k)%list.
  split; [exact H | exact Hc].
Defined.

Lemma missing_element_stops_the_tool_witness :
  given (Some "#missing") = Some "#missing"
  /\ fst (callTool (Screenshot (Some "#missing") None) (idle_server 7000)) =
       inl (McpError InternalError
              "Tool execution failed: Error: Element not found: #missing")
  /\ invoked (snd (callTool (GetText (Some "#missing")) (idle_server 7000))) =
       [Invoked (Query 1 "#missing")].
Proof.
  split; [reflexivity |].
  destruct (missing_element_stops_the_tool (Some "#missing") None "#missing"
              (idle_server 7000) (idle_server 7000) (mkSession 0 1 0)
              (world (idle_server 7000)) eq_refl eq_refl eq_refl eq_refl)
    as [H1 H2].
  split; [exact (f_equal fst H1) | exact (f_equal (fun r => invoked (snd r)) H2)].
Defined.

Lemma element_text_is_not_truncated_witness :
  given (Some "#main") = Some "#main"
  /\ fst (callTool (GetText (Some "#main")) (idle_server 7000)) =
       inr [TextContent "Text from #main: hello"].
Proof.
  split; [reflexivity |].
  destruct (element_text_is_not_truncated (Some "#main") "#main"
              (idle_server 7000) (idle_server 7000) (mkSession 0 1 0) 0
              "hello" (world (idle_server 7000)) (world (idle_server 7000))
              eq_refl eq_refl eq_refl eq_refl eq_refl)
    as [H _].
  exact (f_equal fst H).
Defined.

Lemma session_survives_ticks_after_success_witness :
  let s' := snd (callTool (ClickTool "#go") (idle_server 7000)) in
  let later := step s' (EvWorld (mkSim 1807000 true 2 [0] "hello")) in
  requires_browser (ClickTool "#go") = true
  /\ fst (callTool (ClickTool "#go") (idle_server 7000)) =
       inr [TextContent "Successfully clicked element: #go"]
  /\ cleanupTick later = (inr tt, later).
Proof.
  cbv zeta. split; [reflexivity |]. split; [reflexivity |].
  apply (session_survives_ticks_after_success (ClickTool "#go")
           (idle_server 7000)
           (snd (callTool (ClickTool "#go") (idle_server 7000)))
           [TextContent "Successfully clicked element: #go"]
           (mkSim 1807000 true 2 [0] "hello") eq_refl eq_refl).
  vm_compute. discriminate.
Defined.

Lemma ensureBrowser_never_closes_witness :
  session pageless_server = None
  /\ fst (ensureBrowser pageless_server) =
       inl (McpError InternalError
              "Failed to create browser session: Error: Protocol error (Target.createTarget)")
  /\ invoked (snd (ensureBrowser pageless_server)) =
       [Invoked (Launch false LAUNCH_ARGS); Invoked (NewPage 0)]
  /\ session (snd (ensureBrowser pageless_server)) = None.
Proof.
  split; [reflexivity |].
  destruct (ensureBrowser_never_closes pageless_server 0
              "Error: Protocol error (Target.createTarget)"
              (mkSim 0 true 1 [0] "") (mkSim 0 true 1 [0] "")
              eq_refl eq_refl eq_refl) as [H _].
  split; [exact (f_equal fst H) |].
  split; [exact (f_equal (fun r => invoked (snd r)) H)
         | exact (f_equal (fun r => session (snd r)) H)].
Defined.

Lemma catalog_entries_are_readable_witness :
  In (mkResourceEntry CURRENT_PAGE_URI "application/json" "Current Page Info"
        "Information about the currently loaded page") listResources
  /\ exists text,
       fst (readResource CURRENT_PAGE_URI fresh_server) =
       inr [mkResourceContent CURRENT_PAGE_URI "application/json" text].
Proof.
  assert (H : In (mkResourceEntry CURRENT_PAGE_URI "application/json"
                    "Current Page Info"
                    "Information about the currently loaded page")
                 listResources) by (right; left; reflexivity).
  split; [exact H |].
  pose proof (catalog_entries_are_readable _ fresh_server H) as K.
  vm_compute in K. destruct K as [text K]. exists text.
  exact (f_equal (@inr Thrown (list ResourceContent)) K).
Defined.
